(** * Image generation API: a model of [backend/main.py]

    The server is a thin FastAPI wrapper around a Stable Diffusion pipeline.
    What it computes itself is control flow: two guards, one
    [try]/[except], the defaults of the request model and the start-up
    sequence that optionally applies a LoRA adapter.

    The libraries it calls (torch, diffusers, peft, safetensors, PIL,
    base64, datetime, os.path) are a record [Lib] of functions, each
    returning a Python exception or a value.  The module global [pipe], the
    file system, torch's default random generator and the clock form the
    [World] that start-up and the handlers thread through; the world also
    keeps the trace of the pipeline invocations.

    Conventions of the model:
    - an exception is an instance of [Exception], known by its [str()];
    - the sampler is a function of the pipeline, its keyword arguments,
      the generator it is handed and torch's default generator, which it may
      draw from and advance whether or not it is handed a generator (a
      dropout layer left in training mode draws from it); it leaves the
      pipeline object as it found it, and nondeterminism of the hardware is
      not modelled;
    - the library calls of start-up are taken by what they return: what
      they do to the model cache on disk or to torch's default generator
      is not modelled, and [torch.cuda] is taken to answer at each request
      as it did at import, [get_device_name] without raising;
    - paths are joined as [posixpath] does;
    - calls to [logger] change nothing that is modelled and are left out. *)

From Stdlib Require Import ZArith NArith List String Ascii Strings.Byte Bool Lia.
From Stdlib Require Import Floats.PrimFloat.
Import ListNotations.

Set Implicit Arguments.

(** ** Python strings *)

(** A Python [str] is a sequence of Unicode code points. *)
Module PyStr.

Definition str := list N.

(** A literal of the source; all of them are ASCII. *)
Definition lit (s : string) : str :=
  List.map N_of_ascii (list_ascii_of_string s).

(** [str.isspace] on one code point (CPython's [_PyUnicode_IsWhitespace]). *)
Definition isspace (c : N) : bool :=
  ((0x09 <=? c) && (c <=? 0x0D) ||
   (0x1C <=? c) && (c <=? 0x20) ||
   (c =? 0x85) || (c =? 0xA0) || (c =? 0x1680) ||
   (0x2000 <=? c) && (c <=? 0x200A) ||
   (c =? 0x2028) || (c =? 0x2029) || (c =? 0x202F) ||
   (c =? 0x205F) || (c =? 0x3000))%N.

Fixpoint lstrip (s : str) : str :=
  match s with
  | [] => []
  | c :: t => if isspace c then lstrip t else s
  end.

Definition rstrip (s : str) : str := rev (lstrip (rev s)).

(** [s.strip()]: whitespace removed at both ends. *)
Definition strip (s : str) : str := rstrip (lstrip s).

(** [len(s)]. *)
Definition len (s : str) : Z := Z.of_nat (List.length s).

(** Truth value of a string: [not s] holds of the empty string only. *)
Definition truthy (s : str) : bool :=
  match s with [] => false | _ :: _ => true end.

(** [a or b] on strings, for [a] possibly [None]. *)
Definition or_else (a : option str) (b : str) : str :=
  match a with
  | Some s => if truthy s then s else b
  | None => b
  end.

(** A string made of whitespace only (the empty string included). *)
Definition blank (s : str) : bool := forallb isspace s.

(** [os.path.join] of [posixpath]: a component that starts with a slash
    restarts the path, otherwise it is appended after one separator. *)
Definition slash : N := 0x2F.

Definition startswith_slash (s : str) : bool :=
  match s with c :: _ => (c =? slash)%N | [] => false end.

Definition endswith_slash (s : str) : bool :=
  match rev s with c :: _ => (c =? slash)%N | [] => false end.

Definition join2 (path b : str) : str :=
  if startswith_slash b then b
  else if negb (truthy path) || endswith_slash path then path ++ b
  else path ++ slash :: b.

Definition path_join (a : str) (p : list str) : str := fold_left join2 p a.

End PyStr.

Import PyStr.

(** ** Data of the program *)

(** A Python exception that is an instance of [Exception]; [str(e)] is all
    the program ever reads of it. *)
Inductive exn : Type := Exception (msg : str).

Definition str_of_exn (e : exn) : str := let (msg) := e in msg.

(** [fastapi.HTTPException(status_code, detail)]. *)
Record HTTPException : Type := mkHTTPException {
  status_code : Z;
  detail : str
}.

(** [DEVICE] is one of two strings. *)
Inductive Device : Type := cuda | cpu.

Definition device_str (d : Device) : str :=
  match d with cuda => lit "cuda" | cpu => lit "cpu" end.

Definition is_cuda (d : Device) : bool :=
  match d with cuda => true | cpu => false end.

Inductive Dtype : Type := float16 | float32.

(** [class ImageGenerationRequest(BaseModel)]. *)
Record ImageGenerationRequest : Type := mkRequest {
  prompt : str;
  negative_prompt : option str;
  num_inference_steps : Z;
  guidance_scale : float;
  height : Z;
  width : Z;
  seed : option Z
}.

(** [class ImageGenerationResponse(BaseModel)]. *)
Record ImageGenerationResponse : Type := mkResponse {
  success : bool;
  image_base64 : option str;
  error : option str;
  timestamp : str;
  generation_time : float
}.




(** [peft.LoraConfig(...)], the fields the program sets. *)
Record LoraConfig : Type := mkLoraConfig {
  r : Z;
  lora_alpha : Z;
  target_modules : list str;
  lora_dropout : float;
  bias : str
}.

(** The value bound to [lora_cfg] in [load_model]. *)
Definition lora_cfg : LoraConfig :=
  {| r := 16;
     lora_alpha := 32;
     target_modules := [lit "to_q"; lit "to_k"; lit "to_v"; lit "to_out.0"];
     lora_dropout := 0x1.999999999999ap-5%float;
     bias := lit "none" |}.

Definition MODEL_ID : str := lit "runwayml/stable-diffusion-v1-5".

(** The body of [GET /health]. *)
Record Health : Type := mkHealth {
  health_status : str;
  health_device : str;
  model_loaded : bool
}.

(** The body of [GET /api/models]. *)
Record ModelsInfo : Type := mkModelsInfo {
  base_model : str;
  lora_adapter : str;
  info_device : str;
  info_torch_version : str;
  cuda_available : bool;
  cuda_device : option str
}.

(** ** The libraries and the world *)

Section Model.

(** Values the program only passes around: a PIL image, a
    [torch.nn.Module], the other parts of a pipeline, a state dict of
    tensors, a [torch.Generator], the file system and a [datetime]. *)
Variables Image Module Components StateDict Generator FileSystem DateTime : Type.

(** A [StableDiffusionPipeline]: the program reads and assigns its [unet]
    attribute and leaves the rest to the library. *)
Record Pipeline : Type := mkPipeline {
  unet : Module;
  components : Components
}.

Definition with_unet (p : Pipeline) (m : Module) : Pipeline :=
  {| unet := m; components := components p |}.

(** The keyword arguments of [pipe(...)] other than [generator]. *)
Record PipeArgs : Type := mkPipeArgs {
  arg_prompt : str;
  arg_negative_prompt : str;
  arg_num_inference_steps : Z;
  arg_guidance_scale : float;
  arg_height : Z;
  arg_width : Z
}.

(** One invocation of the pipeline, as recorded in the trace. *)
Record PipeCall : Type := mkPipeCall {
  call_pipe : Pipeline;
  call_args : PipeArgs;
  call_generator : option Generator
}.

(** The library functions the program calls; those returning a sum may
    raise.  [module_dirname] is [os.path.dirname(__file__)].  [sample] is
    the pipeline's [__call__]: it is given the keyword arguments, the
    [generator] argument and the state of torch's default generator, and
    returns its result with the default generator as it left it.
    [save_png] is
    [image.save(buffered, format="PNG")] followed by [buffered.getvalue()],
    [b64encode] is [base64.b64encode(...).decode()], [total_seconds a b] is
    [(a - b).total_seconds()]. *)
Record Lib : Type := mkLib {
  cuda_is_available : bool;
  torch_version : str;
  cuda_get_device_name : Z -> str;
  module_dirname : str;
  path_exists : FileSystem -> str -> bool;
  from_pretrained : str -> Dtype -> exn + Pipeline;
  to_device : Pipeline -> Device -> exn + Pipeline;
  enable_attention_slicing : Pipeline -> exn + Pipeline;
  enable_xformers_memory_efficient_attention : Pipeline -> exn + Pipeline;
  load_file : FileSystem -> str -> exn + StateDict;
  get_peft_model : Module -> LoraConfig -> exn + Module;
  load_state_dict : Module -> StateDict -> bool -> exn + Module;
  manual_seed : Device -> Z -> exn + Generator;
  sample : Pipeline -> PipeArgs -> option Generator -> Generator ->
           (exn + list Image) * Generator;
  save_png : Image -> exn + list byte;
  b64encode : list byte -> exn + str;
  isoformat : DateTime -> str;
  total_seconds : DateTime -> DateTime -> float
}.

(** What the handlers read and write: the module global [pipe], the file
    system, torch's default generator, the clock (reading [k] of
    [datetime.now()] is [clock k]) and the trace of pipeline invocations. *)
Record World : Type := mkWorld {
  pipe : option Pipeline;
  fs : FileSystem;
  default_generator : Generator;
  clock : nat -> DateTime;
  ticks : nat;
  pipe_calls : list PipeCall
}.

(** Computations that read and write the world and may raise an [E]. *)
Definition M (E A : Type) : Type := World -> (E + A) * World.

Definition ret {E A : Type} (a : A) : M E A := fun w => (inr a, w).

Definition raise {E A : Type} (e : E) : M E A := fun w => (inl e, w).

Definition bind {E A B : Type} (c : M E A) (k : A -> M E B) : M E B :=
  fun w =>
    match c w with
    | (inr a, w') => k a w'
    | (inl e, w') => (inl e, w')
    end.

(** [try: c except Exception as e: h e]. *)
Definition try_except {E E' A : Type} (c : M E A) (h : E -> M E' A) : M E' A :=
  fun w =>
    match c w with
    | (inr a, w') => (inr a, w')
    | (inl e, w') => h e w'
    end.

(** A library call that reads no state. *)
Definition lift {E A : Type} (x : E + A) : M E A := fun w => (x, w).

Notation "x <- c ;; k" := (bind c (fun x => k))
  (at level 100, c at next level, right associativity).
Notation "c ;;; k" := (bind c (fun _ => k))
  (at level 100, right associativity).

(** Updates of one component of the world. *)
Definition put_pipe (p : option Pipeline) (w : World) : World :=
  {| pipe := p; fs := fs w; default_generator := default_generator w;
     clock := clock w; ticks := ticks w; pipe_calls := pipe_calls w |}.

Definition put_default_generator (g : Generator) (w : World) : World :=
  {| pipe := pipe w; fs := fs w; default_generator := g;
     clock := clock w; ticks := ticks w; pipe_calls := pipe_calls w |}.

Definition tick (w : World) : World :=
  {| pipe := pipe w; fs := fs w; default_generator := default_generator w;
     clock := clock w; ticks := S (ticks w); pipe_calls := pipe_calls w |}.

Definition record_call (c : PipeCall) (w : World) : World :=
  {| pipe := pipe w; fs := fs w; default_generator := default_generator w;
     clock := clock w; ticks := ticks w; pipe_calls := pipe_calls w ++ [c] |}.

(** [pipe = p], and the in-place updates of the object [pipe] names. *)
Definition set_pipe {E : Type} (p : Pipeline) : M E unit :=
  fun w => (inr tt, put_pipe (Some p) w).

Definition get_pipe {E : Type} : M E (option Pipeline) :=
  fun w => (inr (pipe w), w).

(** The file system as it is now. *)
Definition get_fs {E : Type} : M E FileSystem :=
  fun w => (inr (fs w), w).

(** [datetime.now()]. *)
Definition datetime_now {E : Type} : M E DateTime :=
  fun w => (inr (clock w (ticks w)), tick w).

Variable lib : Lib.

(** [os.path.exists(path)]. *)
Definition os_path_exists {E : Type} (path : str) : M E bool :=
  fun w => (inr (path_exists lib (fs w) path), w).

(** [pipe(prompt=..., ..., generator=generator)]: the invocation is
    recorded; the call is handed [generator] (a local object, dropped
    after the call) and runs on torch's default generator, which it leaves
    advanced by whatever it drew from it. *)
Definition call_pipeline (p : Pipeline) (args : PipeArgs)
    (generator : option Generator) : M exn (list Image) :=
  fun w =>
    let w := record_call (mkPipeCall p args generator) w in
    let (out, g') := sample lib p args generator (default_generator w) in
    (out, put_default_generator g' w).

(** ** Configuration *)

Definition DEVICE : Device := if cuda_is_available lib then cuda else cpu.

Definition LORA_ADAPTER_PATH : str :=
  path_join (module_dirname lib)
            [lit "models"; lit "adapter_model.safetensors"].

Definition LORA_CONFIG_PATH : str :=
  path_join (module_dirname lib)
            [lit "models"; lit "adapter_config.json"].

(** ** Start-up *)

(** Lines 72-85 of [load_model]: the pretrained pipeline on [DEVICE], with
    the attention optimisations when on CUDA.  A failure of xformers is
    caught; any other propagates.  Returns the object bound to [pipe]. *)
Definition load_base : M exn Pipeline :=
  p <- lift (from_pretrained lib MODEL_ID
               (if is_cuda DEVICE then float16 else float32)) ;;
  p <- lift (to_device lib p DEVICE) ;;
  set_pipe p ;;;
  if is_cuda DEVICE then
    p <- lift (enable_attention_slicing lib p) ;;
    set_pipe p ;;;
    try_except
      (p' <- lift (enable_xformers_memory_efficient_attention lib p) ;;
       set_pipe p' ;;;
       ret p')
      (fun _ => ret p)
  else ret p.

(** Lines 91-110: the body of the inner [try]. *)
Definition apply_lora (p : Pipeline) : M exn unit :=
  files <- get_fs ;;
  adapter_state_dict <- lift (load_file lib files LORA_ADAPTER_PATH) ;;
  m <- lift (get_peft_model lib (unet p) lora_cfg) ;;
  set_pipe (with_unet p m) ;;;
  m' <- lift (load_state_dict lib m adapter_state_dict false) ;;
  set_pipe (with_unet p m').

(** Lines 87-115: the adapter is applied when its file exists; an
    exception while doing so is logged and dropped. *)
Definition load_adapter (p : Pipeline) : M exn unit :=
  found <- os_path_exists LORA_ADAPTER_PATH ;;
  if found then try_except (apply_lora p) (fun _ => ret tt)
  else ret tt.

(** [load_model()]; the outer handler logs and re-raises. *)
Definition load_model : M exn unit :=
  try_except (p <- load_base ;; load_adapter p) (fun e => raise e).

(** [startup_event()]. *)
Definition startup_event : M exn unit := load_model.

(** ** Routes *)

(** [GET /health]. *)
Definition health_check : M HTTPException Health :=
  p <- get_pipe ;;
  ret {| health_status := lit "ok";
         health_device := device_str DEVICE;
         model_loaded := match p with Some _ => true | None => false end |}.

(** The keyword arguments [generate_image] builds from a request. *)
Definition pipe_args (request : ImageGenerationRequest) : PipeArgs :=
  {| arg_prompt := prompt request;
     arg_negative_prompt := or_else (negative_prompt request) (lit "");
     arg_num_inference_steps := num_inference_steps request;
     arg_guidance_scale := guidance_scale request;
     arg_height := height request;
     arg_width := width request |}.

(** Lines 189-192: a fresh generator on [DEVICE] seeded with the request's
    seed, or [None]. *)
Definition seeded_generator (request : ImageGenerationRequest)
    : exn + option Generator :=
  match seed request with
  | Some s =>
      match manual_seed lib DEVICE s with
      | inr g => inr (Some g)
      | inl e => inl e
      end
  | None => inr None
  end.

(** [output.images[0]]. *)
Definition first_image (images : list Image) : M exn Image :=
  match images with
  | image :: _ => ret image
  | [] => raise (Exception (lit "list index out of range"))
  end.

(** Lines 185-222: the body of the [try] in [generate_image], run on the
    loaded pipeline [p]. *)
Definition generate_body (p : Pipeline) (request : ImageGenerationRequest)
    : M exn ImageGenerationResponse :=
  start_time <- datetime_now ;;
  generator <- lift (seeded_generator request) ;;
  images <- call_pipeline p (pipe_args request) generator ;;
  image <- first_image images ;;
  png <- lift (save_png lib image) ;;
  img_base64 <- lift (b64encode lib png) ;;
  end_time <- datetime_now ;;
  ret {| success := true;
         image_base64 := Some img_base64;
         error := None;
         timestamp := isoformat lib start_time;
         generation_time := total_seconds lib end_time start_time |}.

(** The second guard: [not request.prompt or len(request.prompt.strip()) == 0]. *)
Definition prompt_rejected (request : ImageGenerationRequest) : bool :=
  negb (truthy (prompt request)) || (len (strip (prompt request)) =? 0)%Z.

(** [POST /api/generate]. *)
Definition generate_image (request : ImageGenerationRequest)
    : M HTTPException ImageGenerationResponse :=
  loaded <- get_pipe ;;
  match loaded with
  | None =>
      raise (mkHTTPException 503 (lit "Model not loaded. Please try again later."))
  | Some p =>
      if prompt_rejected request then
        raise (mkHTTPException 400 (lit "Prompt cannot be empty"))
      else
        try_except (generate_body p request)
          (fun e => raise (mkHTTPException 500
                             (lit "Error generating image: " ++ str_of_exn e)))
  end.

(** [GET /api/models]. *)
Definition get_models_info : M HTTPException ModelsInfo :=
  found <- os_path_exists LORA_ADAPTER_PATH ;;
  ret {| base_model := MODEL_ID;
         lora_adapter := if found then lit "loaded" else lit "not_found";
         info_device := device_str DEVICE;
         info_torch_version := torch_version lib;
         cuda_available := cuda_is_available lib;
         cuda_device := if cuda_is_available lib
                        then Some (cuda_get_device_name lib 0)
                        else None |}.

(** The pipeline invocations a computation adds to the trace of [w]. *)
Definition new_calls {E A : Type} (c : M E A) (w : World) : list PipeCall :=
  skipn (List.length (pipe_calls w)) (pipe_calls (snd (c w))).

(** What a client sees of an answer apart from the two time fields. *)
Definition image_of (x : HTTPException + ImageGenerationResponse)
    : HTTPException + (bool * option str * option str) :=
  match x with
  | inl e => inl e
  | inr resp => inr (success resp, image_base64 resp, error resp)
  end.

(** The world after the pipeline has been called with [generator]. *)
Definition after_call (p : Pipeline) (request : ImageGenerationRequest)
    (generator : option Generator) (w : World) : World :=
  put_default_generator
    (snd (sample lib p (pipe_args request) generator (default_generator w)))
    (record_call (mkPipeCall p (pipe_args request) generator) (tick w)).

(** The sampler, when handed a generator, takes nothing from torch's
    default generator: so it is for a pipeline none of whose modules draws
    random numbers of its own. *)
Definition seed_isolated : Prop :=
  forall (p : Pipeline) (args : PipeArgs) (g d1 d2 : Generator),
    fst (sample lib p args (Some g) d1) = fst (sample lib p args (Some g) d2).

(** The steps of the [try] body at which an exception can arise: seeding
    the generator, the pipeline call, [images[0]], the PNG serialization
    and the base64 encoding. *)
Inductive generation_failure (p : Pipeline) (request : ImageGenerationRequest)
    (w : World) : exn -> Prop :=
| seeding_fails (e : exn) :
    seeded_generator request = inl e ->
    generation_failure p request w e
| pipeline_fails (g : option Generator) (e : exn) :
    seeded_generator request = inr g ->
    fst (sample lib p (pipe_args request) g (default_generator w)) = inl e ->
    generation_failure p request w e
| no_image (g : option Generator) :
    seeded_generator request = inr g ->
    fst (sample lib p (pipe_args request) g (default_generator w)) = inr [] ->
    generation_failure p request w (Exception (lit "list index out of range"))
| serialization_fails (g : option Generator) (image : Image)
    (rest : list Image) (e : exn) :
    seeded_generator request = inr g ->
    fst (sample lib p (pipe_args request) g (default_generator w)) = inr (image :: rest) ->
    save_png lib image = inl e ->
    generation_failure p request w e
| encoding_fails (g : option Generator) (image : Image)
    (rest : list Image) (png : list byte) (e : exn) :
    seeded_generator request = inr g ->
    fst (sample lib p (pipe_args request) g (default_generator w)) = inr (image :: rest) ->
    save_png lib image = inr png ->
    b64encode lib png = inl e ->
    generation_failure p request w e.

(** ** The application

    The three routes registered on [app].  The handlers are coroutines
    without an [await], so the event loop runs each to its end before the
    next: a run of the server is a sequence of requests, each handled on
    the world the previous one left. *)

Inductive Request : Type :=
| GetHealth
| PostApiGenerate (request : ImageGenerationRequest)
| GetApiModels.

Inductive Body : Type :=
| HealthBody (h : Health)
| ImageBody (resp : ImageGenerationResponse)
| ModelsBody (info : ModelsInfo).

Definition is_generate (rq : Request) : bool :=
  match rq with PostApiGenerate _ => true | _ => false end.

(** The handler of a request, by its route. *)
Definition handle (rq : Request) : M HTTPException Body :=
  match rq with
  | GetHealth => h <- health_check ;; ret (HealthBody h)
  | PostApiGenerate request =>
      resp <- generate_image request ;; ret (ImageBody resp)
  | GetApiModels => info <- get_models_info ;; ret (ModelsBody info)
  end.


(** The answers to a sequence of requests, and the world after them. *)
Fixpoint serve (rqs : list Request) (w : World)
    : list (HTTPException + Body) * World :=
  match rqs with
  | [] => ([], w)
  | rq :: rest =>
      let (answer, w') := handle rq w in
      let (answers, w'') := serve rest w' in
      (answer :: answers, w'')
  end.

(** How an answer to a request reads when the model is loaded. *)
Definition answer_when_loaded (a : HTTPException + Body) : Prop :=
  match a with
  | inl h => status_code h <> 503%Z
  | inr (HealthBody h) => model_loaded h = true
  | inr _ => True
  end.

(** How it reads when it is not. *)
Definition answer_when_unloaded (a : HTTPException + Body) : Prop :=
  match a with
  | inl h => h = mkHTTPException 503 (lit "Model not loaded. Please try again later.")
  | inr (HealthBody h) => model_loaded h = false
  | inr (ImageBody _) => False
  | inr (ModelsBody _) => True
  end.

End Model.

(** ** A small instance of the libraries

    Used to run the handlers on concrete requests.  The sampler refuses a
    height that is not a multiple of 8, as diffusers does; the adapter file
    is described by two flags (it exists, it can be read).  In [lib] the
    sampler draws from the default generator only when it is handed none;
    in [dropout_lib] a LoRA-wrapped UNet draws from it at every call, as
    its dropout layers do while in training mode. *)
Module Demo.

Definition Image : Type := Z.
Definition Module' : Type := Z.
Definition Components : Type := unit.
Definition StateDict : Type := Z.
Definition Generator : Type := Z.
Definition FileSystem : Type := (bool * bool)%type.
Definition DateTime : Type := Z.

Definition str_eqb (a b : str) : bool :=
  (List.length a =? List.length b)%nat &&
  forallb (fun xy => (fst xy =? snd xy)%N) (combine a b).

Definition adapter_file : str :=
  lit "/srv/backend/models/adapter_model.safetensors".

Definition base : Pipeline Module' Components := mkPipeline 1%Z tt.

Definition png_of (image : Image) : list byte :=
  match Byte.of_N (Z.to_N (image mod 256)) with
  | Some b => [b]
  | None => []
  end.

Definition lib : Lib Image Module' Components StateDict Generator FileSystem DateTime :=
  {| cuda_is_available := false;
     torch_version := lit "2.1.0";
     cuda_get_device_name := fun _ => lit "";
     module_dirname := lit "/srv/backend";
     path_exists := fun (files : FileSystem) path => str_eqb path adapter_file && fst files;
     from_pretrained := fun _ _ => inr base;
     to_device := fun (p : Pipeline Module' Components) _ => inr p;
     enable_attention_slicing := fun (p : Pipeline Module' Components) => inr p;
     enable_xformers_memory_efficient_attention :=
       fun (p : Pipeline Module' Components) => inr p;
     load_file := fun (files : FileSystem) _ =>
       if snd files then inr 7%Z else inl (Exception (lit "invalid header"));
     get_peft_model := fun (m : Module') cfg => inr (m + 100 * r cfg)%Z;
     load_state_dict := fun (m : Module') (sd : StateDict) _ => inr (m + sd)%Z;
     manual_seed := fun _ (s : Z) => inr s;
     sample := fun _ (args : PipeArgs) (generator : option Generator)
                   (default : Generator) =>
       let g := match generator with Some g => g | None => default end in
       (if (arg_height args mod 8 =? 0)%Z
        then inr [(g + arg_num_inference_steps args)%Z]
        else inl (Exception (lit "height must be divisible by 8")),
        match generator with Some _ => default | None => (default + 1)%Z end);
     save_png := fun (image : Image) => inr (png_of image);
     b64encode := fun bytes => inr (List.map Byte.to_N bytes);
     isoformat := fun _ => lit "2024-01-01T00:00:00";
     total_seconds := fun _ _ => 0%float |}.

(** A world before start-up, by the state of the adapter file and of
    torch's default generator. *)
Definition fresh (files : FileSystem) (g : Generator)
    : World Module' Components Generator FileSystem DateTime :=
  {| pipe := None; fs := files; default_generator := g;
     clock := fun k => Z.of_nat k; ticks := 0; pipe_calls := [] |}.

(** The same with the base pipeline loaded. *)
Definition serving (files : FileSystem) (g : Generator)
    : World Module' Components Generator FileSystem DateTime :=
  put_pipe (Some base) (fresh files g).

Definition request_of (p : str) (h : Z) (s : option Z) : ImageGenerationRequest :=
  {| prompt := p; negative_prompt := None; num_inference_steps := 50;
     guidance_scale := 7.5; height := h; width := 512; seed := s |}.

(** A seeded request for a 512 by 512 image. *)
Definition cat : ImageGenerationRequest := request_of (lit "a cat") 512 (Some 42%Z).

(** The same without a seed. *)
Definition cat_unseeded : ImageGenerationRequest := request_of (lit "a cat") 512 None.

(** A height the sampler refuses. *)
Definition cat_7 : ImageGenerationRequest := request_of (lit "a cat") 7 (Some 42%Z).

(** A prompt of two spaces. *)
Definition spaces : ImageGenerationRequest := request_of (lit "  ") 512 None.

(** The adapter file present and readable; present and unreadable. *)
Definition good_files : FileSystem := (true, true).
Definition bad_files : FileSystem := (true, false).

(** The same libraries on a machine with CUDA where xformers is missing;
    attention slicing marks the UNet by adding 1000. *)
Definition gpu_lib : Lib Image Module' Components StateDict Generator FileSystem DateTime :=
  {| cuda_is_available := true;
     torch_version := torch_version lib;
     cuda_get_device_name := fun _ => lit "NVIDIA A100";
     module_dirname := module_dirname lib;
     path_exists := path_exists lib;
     from_pretrained := from_pretrained lib;
     to_device := to_device lib;
     enable_attention_slicing :=
       fun (p : Pipeline Module' Components) => inr (with_unet p (unet p + 1000)%Z);
     enable_xformers_memory_efficient_attention :=
       fun _ => inl (Exception (lit "xformers is not installed"));
     load_file := load_file lib;
     get_peft_model := get_peft_model lib;
     load_state_dict :=
       fun _ _ _ => inl (Exception (lit "size mismatch"));
     manual_seed := manual_seed lib;
     sample := sample lib;
     save_png := save_png lib;
     b64encode := b64encode lib;
     isoformat := isoformat lib;
     total_seconds := total_seconds lib |}.

(** The libraries when the model cannot be fetched. *)
Definition offline_lib : Lib Image Module' Components StateDict Generator FileSystem DateTime :=
  {| cuda_is_available := false;
     torch_version := torch_version lib;
     cuda_get_device_name := cuda_get_device_name lib;
     module_dirname := module_dirname lib;
     path_exists := path_exists lib;
     from_pretrained := fun _ _ => inl (Exception (lit "connection error"));
     to_device := to_device lib;
     enable_attention_slicing := enable_attention_slicing lib;
     enable_xformers_memory_efficient_attention :=
       enable_xformers_memory_efficient_attention lib;
     load_file := load_file lib;
     get_peft_model := get_peft_model lib;
     load_state_dict := load_state_dict lib;
     manual_seed := manual_seed lib;
     sample := sample lib;
     save_png := save_png lib;
     b64encode := b64encode lib;
     isoformat := isoformat lib;
     total_seconds := total_seconds lib |}.

(** The libraries on a CUDA machine where attention slicing fails. *)
Definition broken_gpu_lib : Lib Image Module' Components StateDict Generator FileSystem DateTime :=
  {| cuda_is_available := true;
     torch_version := torch_version lib;
     cuda_get_device_name := cuda_get_device_name gpu_lib;
     module_dirname := module_dirname lib;
     path_exists := path_exists lib;
     from_pretrained := from_pretrained lib;
     to_device := to_device lib;
     enable_attention_slicing :=
       fun _ => inl (Exception (lit "CUDA out of memory"));
     enable_xformers_memory_efficient_attention :=
       enable_xformers_memory_efficient_attention lib;
     load_file := load_file lib;
     get_peft_model := get_peft_model lib;
     load_state_dict := load_state_dict lib;
     manual_seed := manual_seed lib;
     sample := sample lib;
     save_png := save_png lib;
     b64encode := b64encode lib;
     isoformat := isoformat lib;
     total_seconds := total_seconds lib |}.

(** A session touching every route: a health check, a request that fails
    in the sampler, one that the prompt guard rejects, one without a seed
    and the model information. *)
Definition session : list Request :=
  [GetHealth; PostApiGenerate cat_7; PostApiGenerate spaces;
   PostApiGenerate cat_unseeded; GetApiModels].

(** The base pipeline after attention slicing under [gpu_lib]. *)
Definition sliced : Pipeline Module' Components := with_unet base 1001%Z.


(** No adapter file. *)
Definition no_files : FileSystem := (false, false).

(** Whether a UNet went through [get_peft_model] of [lib]. *)
Definition lora_wrapped (p : Pipeline Module' Components) : bool :=
  (1600 <=? unet p)%Z.

(** The libraries of [lib] with a sampler that, on a LoRA-wrapped UNet,
    draws from torch's default generator at every call: every image is
    shifted by the state of the default generator, which is advanced. *)
Definition dropout_lib : Lib Image Module' Components StateDict Generator FileSystem DateTime :=
  {| cuda_is_available := false;
     torch_version := torch_version lib;
     cuda_get_device_name := cuda_get_device_name lib;
     module_dirname := module_dirname lib;
     path_exists := path_exists lib;
     from_pretrained := from_pretrained lib;
     to_device := to_device lib;
     enable_attention_slicing := enable_attention_slicing lib;
     enable_xformers_memory_efficient_attention :=
       enable_xformers_memory_efficient_attention lib;
     load_file := load_file lib;
     get_peft_model := get_peft_model lib;
     load_state_dict := load_state_dict lib;
     manual_seed := manual_seed lib;
     sample := fun (p : Pipeline Module' Components) (args : PipeArgs)
                   (generator : option Generator) (default : Generator) =>
       if lora_wrapped p then
         (match fst (sample lib p args generator default) with
          | inr images => inr (List.map (fun image => (image + default)%Z) images)
          | inl e => inl e
          end,
          (default + 1)%Z)
       else sample lib p args generator default;
     save_png := save_png lib;
     b64encode := b64encode lib;
     isoformat := isoformat lib;
     total_seconds := total_seconds lib |}.

(** The world after start-up under [dropout_lib] with a readable adapter
    file: the UNet is wrapped and loaded. *)
Definition adapted : World Module' Components Generator FileSystem DateTime :=
  snd (load_model dropout_lib (fresh good_files 5%Z)).

End Demo.

(** ** Facts about strings *)

Lemma lstrip_nil_iff (s : str) : lstrip s = [] <-> blank s = true.
Proof.
  unfold blank.
  induction s as [|c t IH]; simpl; [tauto|].
  destruct (isspace c) eqn:E; simpl; [exact IH|].
  split; discriminate.
Qed.

(** What [lstrip] leaves is empty or starts with a non-blank character. *)
Lemma lstrip_head (s : str) :
  lstrip s = [] \/ exists c t, lstrip s = c :: t /\ isspace c = false.
Proof.
  induction s as [|c t IH]; simpl; [now left|].
  destruct (isspace c) eqn:E; [exact IH|].
  right. now exists c, t.
Qed.

Lemma blank_app (a b : str) : blank (a ++ b) = blank a && blank b.
Proof. apply forallb_app. Qed.

Lemma blank_rev (s : str) : blank (rev s) = blank s.
Proof.
  induction s as [|c t IH]; simpl; [reflexivity|].
  rewrite blank_app, IH. simpl. rewrite andb_true_r. apply andb_comm.
Qed.

Lemma rstrip_nil_iff (s : str) : rstrip s = [] <-> blank s = true.
Proof.
  unfold rstrip. rewrite <- (blank_rev s), <- lstrip_nil_iff.
  split; intros H.
  - apply (f_equal (@rev N)) in H. now rewrite rev_involutive in H.
  - now rewrite H.
Qed.

(** The guard of the handler tests [len(prompt.strip()) == 0]; this is
    the same as the prompt being blank. *)
Lemma strip_nil_iff (s : str) : strip s = [] <-> blank s = true.
Proof.
  unfold strip. rewrite rstrip_nil_iff.
  destruct (lstrip_head s) as [H | (c & t & H & Hc)].
  - rewrite H. simpl. rewrite <- lstrip_nil_iff. tauto.
  - rewrite H. simpl. rewrite Hc. simpl.
    split; [discriminate|]. intros Hb.
    apply lstrip_nil_iff in Hb. congruence.
Qed.

Lemma len_zero_iff (s : str) : (len s =? 0)%Z = true <-> s = [].
Proof.
  unfold len. destruct s; simpl; [tauto|].
  split; discriminate.
Qed.

Example isspace_samples :
  List.map isspace [0x20; 0x09; 0x0A; 0x1F; 0xA0; 0x2005; 0x3000]%N =
    [true; true; true; true; true; true; true] /\
  List.map isspace [0x00; 0x08; 0x0E; 0x21; 0x41; 0x200B; 0x2060]%N =
    [false; false; false; false; false; false; false].
Proof. split; reflexivity. Qed.

Example strip_samples :
  strip (lit "  a cat ") = lit "a cat" /\
  strip (lit "a  b") = lit "a  b" /\
  strip (0x0A :: 0x09 :: lit "  ")%N = [] /\
  strip [] = [].
Proof. repeat split. Qed.

Example path_join_samples :
  path_join (lit "/srv/backend") [lit "models"; lit "adapter_config.json"] =
    lit "/srv/backend/models/adapter_config.json" /\
  path_join (lit "") [lit "models"; lit "x"] = lit "models/x" /\
  path_join (lit "/srv/") [lit "models"; lit "/etc"] = lit "/etc".
Proof. repeat split. Qed.

(** ** Facts about the handlers *)

Lemma skipn_length_app (A : Type) (l x : list A) :
  skipn (List.length l) (l ++ x) = x.
Proof. induction l as [|a l IH]; simpl; [reflexivity | exact IH]. Qed.

Lemma skipn_length_self (A : Type) (l : list A) :
  skipn (List.length l) l = [].
Proof. induction l as [|a l IH]; simpl; [reflexivity | exact IH]. Qed.

(** The second guard rejects exactly the blank prompts. *)
Lemma prompt_rejected_iff (request : ImageGenerationRequest) :
  prompt_rejected request = true <-> blank (prompt request) = true.
Proof.
  unfold prompt_rejected.
  rewrite orb_true_iff, len_zero_iff, strip_nil_iff.
  split; [intros [H | H]; [|exact H] | tauto].
  destruct (prompt request); [reflexivity | discriminate].
Qed.

Lemma prompt_accepted_iff (request : ImageGenerationRequest) :
  prompt_rejected request = false <-> strip (prompt request) <> [].
Proof.
  rewrite <- not_true_iff_false, prompt_rejected_iff, strip_nil_iff.
  tauto.
Qed.

Section Facts.

Variables Image Module Components StateDict Generator FileSystem DateTime : Type.
Variable lib : Lib Image Module Components StateDict Generator FileSystem DateTime.

Let world : Type := World Module Components Generator FileSystem DateTime.
Let pipeline : Type := Pipeline Module Components.

(** The three ways [generate_image] can go. *)
Lemma generate_image_unloaded (request : ImageGenerationRequest) (w : world) :
  pipe w = None ->
  generate_image lib request w =
  (inl (mkHTTPException 503 (lit "Model not loaded. Please try again later.")), w).
Proof.
  intros H. unfold generate_image, bind, get_pipe, raise. now rewrite H.
Qed.

Lemma generate_image_blank (request : ImageGenerationRequest) (w : world)
    (p : pipeline) :
  pipe w = Some p ->
  prompt_rejected request = true ->
  generate_image lib request w =
  (inl (mkHTTPException 400 (lit "Prompt cannot be empty")), w).
Proof.
  intros H Hr. unfold generate_image, bind, get_pipe, raise.
  now rewrite H, Hr.
Qed.

Lemma generate_image_runs (request : ImageGenerationRequest) (w : world)
    (p : pipeline) :
  pipe w = Some p ->
  prompt_rejected request = false ->
  generate_image lib request w =
  match generate_body lib p request w with
  | (inr resp, w') => (inr resp, w')
  | (inl e, w') =>
      (inl (mkHTTPException 500
              (lit "Error generating image: " ++ str_of_exn e)), w')
  end.
Proof.
  intros H Hr. unfold generate_image, bind, get_pipe, try_except, raise.
  now rewrite H, Hr.
Qed.

(** The body of the [try], step by step. *)
Lemma generate_body_unfold (p : pipeline) (request : ImageGenerationRequest)
    (w : world) :
  generate_body lib p request w =
  match seeded_generator lib request with
  | inl e => (inl e, tick w)
  | inr g =>
      let w2 := after_call lib p request g w in
      match fst (sample lib p (pipe_args request) g (default_generator w)) with
      | inl e => (inl e, w2)
      | inr [] => (inl (Exception (lit "list index out of range")), w2)
      | inr (image :: _) =>
          match save_png lib image with
          | inl e => (inl e, w2)
          | inr png =>
              match b64encode lib png with
              | inl e => (inl e, w2)
              | inr img_base64 =>
                  (inr {| success := true;
                          image_base64 := Some img_base64;
                          error := None;
                          timestamp := isoformat lib (clock w (ticks w));
                          generation_time :=
                            total_seconds lib (clock w (S (ticks w)))
                                          (clock w (ticks w)) |},
                   tick w2)
              end
          end
      end
  end.
Proof.
  unfold generate_body, bind, datetime_now, lift, call_pipeline, first_image,
    after_call, ret, raise.
  destruct (seeded_generator lib request) as [e | g]; [reflexivity|].
  simpl.
  destruct (sample lib p (pipe_args request) g (default_generator w))
    as [[e | [|image rest]] g']; reflexivity.
Qed.

Lemma after_call_calls (p : pipeline) (request : ImageGenerationRequest)
    (g : option Generator) (w : world) :
  pipe_calls (after_call lib p request g w) =
  pipe_calls w ++ [mkPipeCall p (pipe_args request) g].
Proof. reflexivity. Qed.

Lemma after_call_pipe (p : pipeline) (request : ImageGenerationRequest)
    (g : option Generator) (w : world) :
  pipe (after_call lib p request g w) = pipe w.
Proof. reflexivity. Qed.

(** Case analysis on every library call of the [try] body. *)
Ltac body_cases p request w :=
  rewrite (generate_body_unfold p request w);
  let g := fresh "g" in
  destruct (seeded_generator lib request) as [? | g]; simpl;
  [ | destruct (fst (sample lib p (pipe_args request) g (default_generator w)))
        as [? | [ | ?image ?rest]]; simpl;
      [ | | destruct (save_png lib image) as [? | ?png]; simpl;
            [ | destruct (b64encode lib png) as [? | ?b]; simpl ] ] ].

(** The invocations of the pipeline one request causes: none unless both
    guards pass and the generator can be seeded, and then exactly one. *)
Lemma generate_image_calls (request : ImageGenerationRequest) (w : world) :
  new_calls (generate_image lib request) w =
  match pipe w with
  | None => []
  | Some p =>
      if prompt_rejected request then []
      else match seeded_generator lib request with
           | inl _ => []
           | inr g => [mkPipeCall p (pipe_args request) g]
           end
  end.
Proof.
  unfold new_calls.
  destruct (pipe w) as [p | ] eqn:Hp.
  - destruct (prompt_rejected request) eqn:Hr.
    + rewrite (generate_image_blank request w Hp Hr). apply skipn_length_self.
    + rewrite (generate_image_runs request w Hp Hr).
      body_cases p request w;
        rewrite ?after_call_calls;
        first [apply skipn_length_self | apply skipn_length_app].
  - rewrite (generate_image_unloaded request w Hp). apply skipn_length_self.
Qed.

(** No request handler assigns [pipe]. *)
Lemma generate_image_pipe (request : ImageGenerationRequest) (w : world) :
  pipe (snd (generate_image lib request w)) = pipe w.
Proof.
  destruct (pipe w) as [p | ] eqn:Hp.
  - destruct (prompt_rejected request) eqn:Hr.
    + now rewrite (generate_image_blank request w Hp Hr).
    + rewrite (generate_image_runs request w Hp Hr).
      body_cases p request w; rewrite ?after_call_pipe; exact Hp.
  - now rewrite (generate_image_unloaded request w Hp).
Qed.

(** ** Start-up, step by step *)

(** When the base pipeline loads, the only change to the world is that
    [pipe] names it. *)
Lemma load_base_ok (w w' : world) (p : pipeline) :
  load_base lib w = (inr p, w') -> w' = put_pipe (Some p) w.
Proof.
  unfold load_base, bind, lift, set_pipe, try_except, ret.
  destruct (from_pretrained lib MODEL_ID _) as [e | p1]; [discriminate|].
  destruct (to_device lib p1 (DEVICE lib)) as [e | p2]; [discriminate|].
  destruct (is_cuda (DEVICE lib)).
  - destruct (enable_attention_slicing lib p2) as [e | p3]; [discriminate|].
    destruct (enable_xformers_memory_efficient_attention lib p3) as [e | p4];
      intros H; inversion H; reflexivity.
  - intros H; inversion H; reflexivity.
Qed.

Lemma load_adapter_unfold (p : pipeline) (w : world) :
  load_adapter lib p w =
  if path_exists lib (fs w) (LORA_ADAPTER_PATH lib) then
    match load_file lib (fs w) (LORA_ADAPTER_PATH lib) with
    | inl _ => (inr tt, w)
    | inr adapter_state_dict =>
        match get_peft_model lib (unet p) lora_cfg with
        | inl _ => (inr tt, w)
        | inr m =>
            match load_state_dict lib m adapter_state_dict false with
            | inl _ => (inr tt, put_pipe (Some (with_unet p m)) w)
            | inr m' => (inr tt, put_pipe (Some (with_unet p m')) w)
            end
        end
    end
  else (inr tt, w).
Proof.
  unfold load_adapter, apply_lora, bind, os_path_exists, try_except, get_fs,
    lift, set_pipe, ret.
  destruct (path_exists lib (fs w) (LORA_ADAPTER_PATH lib)); [|reflexivity].
  destruct (load_file lib (fs w) (LORA_ADAPTER_PATH lib)) as [e | sd];
    [reflexivity|].
  destruct (get_peft_model lib (unet p) lora_cfg) as [e | m]; [reflexivity|].
  simpl.
  destruct (load_state_dict lib m sd false) as [e | m']; reflexivity.
Qed.

Lemma load_model_unfold (w : world) :
  load_model lib w =
  match load_base lib w with
  | (inr p, w') => load_adapter lib p w'
  | (inl e, w') => (inl e, w')
  end.
Proof.
  unfold load_model, try_except, bind, raise.
  destruct (load_base lib w) as [[e | p] w']; [reflexivity|].
  destruct (load_adapter lib p w') as [[e | u] w'']; reflexivity.
Qed.

(** Applying the adapter never fails start-up and never unloads [pipe]. *)
Lemma load_adapter_total (p : pipeline) (w : world) :
  fst (load_adapter lib p w) = inr tt /\
  (pipe w <> None -> pipe (snd (load_adapter lib p w)) <> None) /\
  fs (snd (load_adapter lib p w)) = fs w.
Proof.
  rewrite load_adapter_unfold.
  destruct (path_exists lib (fs w) (LORA_ADAPTER_PATH lib)); [|tauto].
  destruct (load_file lib (fs w) (LORA_ADAPTER_PATH lib)) as [e | sd]; [tauto|].
  destruct (get_peft_model lib (unet p) lora_cfg) as [e | m]; [tauto|].
  destruct (load_state_dict lib m sd false) as [e | m']; simpl;
    (split; [reflexivity | split; [discriminate | reflexivity]]).
Qed.

(** ** The claims *)

(** C1 (amended).  For a request whose prompt is not blank, received while
    the pipeline is loaded, provided no step of the generation raises
    (seeding the generator, the pipeline call returning at least one image,
    the PNG serialization, the base64 encoding): the pipeline is invoked
    exactly once, with the request's prompt and sampling parameters and the
    generator made from its seed, and the answer has [success = true] and
    as [image_base64] the base64 encoding of the PNG serialization of the
    first image the pipeline produced. *)
Theorem generate_image_success (request : ImageGenerationRequest) (w : world)
    (p : pipeline) (g : option Generator) (image : Image) (rest : list Image)
    (png : list byte) (img_base64 : str) :
  pipe w = Some p ->
  strip (prompt request) <> [] ->
  seeded_generator lib request = inr g ->
  fst (sample lib p (pipe_args request) g (default_generator w)) = inr (image :: rest) ->
  save_png lib image = inr png ->
  b64encode lib png = inr img_base64 ->
  exists resp w',
    generate_image lib request w = (inr resp, w') /\
    success resp = true /\
    image_base64 resp = Some img_base64 /\
    error resp = None /\
    new_calls (generate_image lib request) w =
    [mkPipeCall p
       {| arg_prompt := prompt request;
          arg_negative_prompt := or_else (negative_prompt request) (lit "");
          arg_num_inference_steps := num_inference_steps request;
          arg_guidance_scale := guidance_scale request;
          arg_height := height request;
          arg_width := width request |}
       g].
Proof.
  intros Hp Hs Hg Himg Hpng Hb.
  apply prompt_accepted_iff in Hs.
  eexists; eexists.
  split; [|split; [|split; [|split]]].
  - rewrite (generate_image_runs request w Hp Hs), generate_body_unfold.
    rewrite Hg. simpl. rewrite Himg, Hpng, Hb. reflexivity.
  - reflexivity.
  - reflexivity.
  - reflexivity.
  - rewrite generate_image_calls, Hp, Hs, Hg. reflexivity.
Qed.

(** What the seeding of lines 189-192 achieves: when the sampler is
    [seed_isolated], two runs of a request with a seed against the same
    loaded pipeline give the same image, whatever else differs between the
    two worlds.  The code does nothing to make the sampler so. *)
Lemma seeded_runs_agree_when_isolated (request : ImageGenerationRequest)
    (s : Z) (w1 w2 : world) :
  seed_isolated lib ->
  pipe w1 = pipe w2 ->
  seed request = Some s ->
  image_of (fst (generate_image lib request w1)) =
  image_of (fst (generate_image lib request w2)).
Proof.
  intros Hi Hp Hs.
  destruct (pipe w2) as [p | ] eqn:Hp2.
  - destruct (prompt_rejected request) eqn:Hr.
    + now rewrite (generate_image_blank request w1 Hp Hr),
        (generate_image_blank request w2 Hp2 Hr).
    + rewrite (generate_image_runs request w1 Hp Hr),
        (generate_image_runs request w2 Hp2 Hr).
      rewrite !generate_body_unfold.
      unfold seeded_generator. rewrite Hs.
      destruct (manual_seed lib (DEVICE lib) s) as [e | g]; [reflexivity|].
      simpl.
      rewrite (Hi p (pipe_args request) g (default_generator w1)
                 (default_generator w2)).
      destruct (fst (sample lib p (pipe_args request) (Some g)
                       (default_generator w2)))
        as [e | [ | image rest]]; try reflexivity.
      destruct (save_png lib image) as [e | png]; [reflexivity|].
      destruct (b64encode lib png) as [e | b]; reflexivity.
  - now rewrite (generate_image_unloaded request w1 Hp),
      (generate_image_unloaded request w2 Hp2).
Qed.

(** C3 (amended).  Once the base pipeline [p0] has loaded: if the adapter
    file does not exist, [pipe] is [p0], the pretrained pipeline as loaded;
    if it exists and reading it, wrapping the UNet and loading the state
    dict do not raise, [pipe] is [p0] with as UNet the result of
    [get_peft_model] on [p0]'s UNet under a LoRA configuration of rank 16
    and alpha 32 that targets exactly [to_q], [to_k], [to_v] and
    [to_out.0], with the adapter state dict loaded into it (not strictly);
    and whatever happens while applying the adapter, start-up returns
    normally with a pipeline loaded. *)
Theorem load_model_adapter (w w0 : world) (p0 : pipeline) :
  load_base lib w = (inr p0, w0) ->
  (path_exists lib (fs w) (LORA_ADAPTER_PATH lib) = false ->
   load_model lib w = (inr tt, w0) /\ pipe w0 = Some p0) /\
  (forall (adapter_state_dict : StateDict) (m m' : Module),
     path_exists lib (fs w) (LORA_ADAPTER_PATH lib) = true ->
     load_file lib (fs w) (LORA_ADAPTER_PATH lib) = inr adapter_state_dict ->
     get_peft_model lib (unet p0)
       {| r := 16; lora_alpha := 32;
          target_modules := [lit "to_q"; lit "to_k"; lit "to_v"; lit "to_out.0"];
          lora_dropout := 0x1.999999999999ap-5%float;
          bias := lit "none" |} = inr m ->
     load_state_dict lib m adapter_state_dict false = inr m' ->
     load_model lib w = (inr tt, put_pipe (Some (with_unet p0 m')) w0)) /\
  (fst (load_model lib w) = inr tt /\ pipe (snd (load_model lib w)) <> None).
Proof.
  intros Hb.
  pose proof (load_base_ok w Hb) as Hw0.
  assert (Hfs : fs w0 = fs w) by (now subst w0).
  assert (Hpipe : pipe w0 = Some p0) by (now subst w0).
  rewrite load_model_unfold, Hb.
  split; [|split].
  - intros Hx. rewrite load_adapter_unfold, Hfs, Hx. now split.
  - intros sd m m' Hx Hl Hg Hd.
    rewrite load_adapter_unfold, Hfs, Hx, Hl.
    change (get_peft_model lib (unet p0) lora_cfg = inr m) in Hg.
    now rewrite Hg, Hd.
  - destruct (load_adapter_total p0 w0) as (H1 & H2 & _).
    split; [exact H1|]. apply H2. rewrite Hpipe. discriminate.
Qed.

(** An exception at any step of the [try] body is what the body raises. *)
Lemma generation_failure_raises (request : ImageGenerationRequest) (w : world)
    (p : pipeline) (e : exn) :
  generation_failure lib p request w e ->
  exists w', generate_body lib p request w = (inl e, w') /\ pipe w' = pipe w.
Proof.
  intros H. rewrite generate_body_unfold.
  destruct H as [e Hg | g e Hg Hs | g Hg Hs | g image rest e Hg Hs Hp
                | g image rest png e Hg Hs Hp Hb];
    rewrite Hg; simpl; rewrite ?Hs, ?Hp, ?Hb;
    eexists; (split; [reflexivity|]);
    rewrite ?after_call_pipe; reflexivity.
Qed.

(** Conversely, the body raises only through one of these steps. *)
Lemma raises_generation_failure (request : ImageGenerationRequest) (w w' : world)
    (p : pipeline) (e : exn) :
  generate_body lib p request w = (inl e, w') ->
  generation_failure lib p request w e.
Proof.
  rewrite generate_body_unfold.
  destruct (seeded_generator lib request) as [e0 | g] eqn:Hg; simpl.
  - intros H; inversion H; subst. now apply seeding_fails.
  - destruct (fst (sample lib p (pipe_args request) g (default_generator w)))
      as [e0 | [ | image rest]] eqn:Hs.
    + intros H; inversion H; subst. now apply pipeline_fails with (g := g).
    + intros H; inversion H; subst. now apply no_image with (g := g).
    + destruct (save_png lib image) as [e0 | png] eqn:Hp.
      * intros H; inversion H; subst.
        now apply serialization_fails with (g := g) (image := image) (rest := rest).
      * destruct (b64encode lib png) as [e0 | b] eqn:Hb; [|discriminate].
        intros H; inversion H; subst.
        now apply encoding_fails
          with (g := g) (image := image) (rest := rest) (png := png).
Qed.



(** C7 (amended).  A request whose prompt is empty or all whitespace never
    reaches the pipeline.  While the pipeline is loaded it is answered
    HTTP 400 with detail ["Prompt cannot be empty"]; while it is not, the
    first guard answers 503 before the prompt is looked at. *)
Theorem blank_prompt_rejected (request : ImageGenerationRequest) (w : world) :
  blank (prompt request) = true ->
  new_calls (generate_image lib request) w = [] /\
  (forall p : pipeline,
     pipe w = Some p ->
     generate_image lib request w =
       (inl (mkHTTPException 400 (lit "Prompt cannot be empty")), w)) /\
  (pipe w = None ->
   generate_image lib request w =
     (inl (mkHTTPException 503
             (lit "Model not loaded. Please try again later.")), w)).
Proof.
  intros Hb. apply prompt_rejected_iff in Hb.
  split; [|split].
  - rewrite generate_image_calls, Hb. now destruct (pipe w).
  - intros p Hp. exact (generate_image_blank request w Hp Hb).
  - intros Hp. exact (generate_image_unloaded request w Hp).
Qed.

(** C8.  [GET /api/models] reports [lora_adapter] as ["loaded"] exactly
    when the adapter file exists in the file system of the moment, and as
    ["not_found"] otherwise.  In particular, when at start-up the file
    exists and applying the adapter raises, [load_model] returns normally
    all the same and the report on the resulting world is still
    ["loaded"]. *)
Theorem models_info_reports_file_existence (w : world) :
  (exists info,
     get_models_info lib w = (inr info, w) /\
     (lora_adapter info = lit "loaded" <->
      path_exists lib (fs w) (LORA_ADAPTER_PATH lib) = true) /\
     (lora_adapter info = lit "not_found" <->
      path_exists lib (fs w) (LORA_ADAPTER_PATH lib) = false)) /\
  (forall (p0 : pipeline) (w0 w1 : world) (e : exn),
     load_base lib w = (inr p0, w0) ->
     path_exists lib (fs w) (LORA_ADAPTER_PATH lib) = true ->
     apply_lora lib p0 w0 = (inl e, w1) ->
     load_model lib w = (inr tt, w1) /\
     exists info,
       fst (get_models_info lib w1) = inr info /\
       lora_adapter info = lit "loaded").
Proof.
  split.
  - eexists. split; [reflexivity|]. simpl.
    destruct (path_exists lib (fs w) (LORA_ADAPTER_PATH lib));
      split; split; intros H; try reflexivity; discriminate H.
  - intros p0 w0 w1 e Hb Hx Ha.
    pose proof (load_base_ok w Hb) as Hw0.
    assert (Hfs : fs w0 = fs w) by (now subst w0).
    assert (Hfs1 : fs w1 = fs w0).
    { revert Ha.
      unfold apply_lora, bind, get_fs, lift, set_pipe.
      destruct (load_file lib (fs w0) (LORA_ADAPTER_PATH lib)) as [e1 | sd];
        [intros H; now inversion H|].
      destruct (get_peft_model lib (unet p0) lora_cfg) as [e1 | m];
        [intros H; now inversion H|].
      simpl.
      destruct (load_state_dict lib m sd false) as [e1 | m'];
        intros H; inversion H; reflexivity. }
    split.
    + rewrite load_model_unfold, Hb.
      unfold load_adapter, bind, os_path_exists, try_except, ret.
      now rewrite Hfs, Hx, Ha.
    + eexists. split; [reflexivity|]. simpl.
      now rewrite Hfs1, Hfs, Hx.
Qed.


(** ** More about [generate_image] *)

Lemma seeded_generator_none (request : ImageGenerationRequest) :
  seeded_generator lib request = inr None -> seed request = None.
Proof.
  unfold seeded_generator.
  destruct (seed request) as [s | ]; [|reflexivity].
  destruct (manual_seed lib (DEVICE lib) s); discriminate.
Qed.

Lemma seeded_generator_some (request : ImageGenerationRequest) (s : Z) :
  seed request = Some s ->
  seeded_generator lib request =
  match manual_seed lib (DEVICE lib) s with
  | inr g => inr (Some g)
  | inl e => inl e
  end.
Proof. intros H. unfold seeded_generator. now rewrite H. Qed.

(** The trace after a request is the trace before it, extended by the
    invocations the request caused. *)
Lemma generate_image_trace (request : ImageGenerationRequest) (w : world) :
  pipe_calls (snd (generate_image lib request w)) =
  pipe_calls w ++ new_calls (generate_image lib request) w.
Proof.
  rewrite generate_image_calls.
  destruct (pipe w) as [p | ] eqn:Hp.
  - destruct (prompt_rejected request) eqn:Hr.
    + rewrite (generate_image_blank request w Hp Hr). simpl.
      now rewrite app_nil_r.
    + rewrite (generate_image_runs request w Hp Hr).
      body_cases p request w; rewrite ?after_call_calls, ?app_nil_r;
        reflexivity.
  - rewrite (generate_image_unloaded request w Hp). simpl.
    now rewrite app_nil_r.
Qed.

(** What of the world an answer depends on: the loaded pipeline and
    torch's default generator. *)
Lemma generate_image_answer_eq (request : ImageGenerationRequest)
    (w1 w2 : world) :
  pipe w1 = pipe w2 ->
  default_generator w1 = default_generator w2 ->
  image_of (fst (generate_image lib request w1)) =
  image_of (fst (generate_image lib request w2)).
Proof.
  intros Hp Hg.
  destruct (pipe w2) as [p | ] eqn:Hp2.
  - destruct (prompt_rejected request) eqn:Hr.
    + now rewrite (generate_image_blank request w1 Hp Hr),
        (generate_image_blank request w2 Hp2 Hr).
    + rewrite (generate_image_runs request w1 Hp Hr),
        (generate_image_runs request w2 Hp2 Hr).
      rewrite !generate_body_unfold.
      destruct (seeded_generator lib request) as [e | g] eqn:Hs;
        [reflexivity|].
      simpl. rewrite Hg.
      destruct (fst (sample lib p (pipe_args request) g (default_generator w2)))
        as [e | [ | image rest]]; try reflexivity.
      destruct (save_png lib image) as [e | png]; [reflexivity|].
      destruct (b64encode lib png) as [e | b]; reflexivity.
  - now rewrite (generate_image_unloaded request w1 Hp),
      (generate_image_unloaded request w2 Hp2).
Qed.

(** A request that passes both guards succeeds unless a step of the
    generation raises. *)
Lemma generate_body_succeeds (request : ImageGenerationRequest) (w : world)
    (p : pipeline) :
  (forall e, ~ generation_failure lib p request w e) ->
  exists resp w',
    generate_body lib p request w = (inr resp, w') /\
    success resp = true /\ error resp = None /\
    exists img, image_base64 resp = Some img.
Proof.
  intros Hno.
  destruct (generate_body lib p request w) as [[e | resp] w'] eqn:Hbody.
  - exfalso. exact (Hno e (raises_generation_failure _ _ _ Hbody)).
  - exists resp, w'. split; [reflexivity|].
    rewrite generate_body_unfold in Hbody.
    destruct (seeded_generator lib request) as [e | g]; [discriminate|].
    simpl in Hbody.
    destruct (fst (sample lib p (pipe_args request) g (default_generator w)))
      as [e | [ | image rest]]; try discriminate.
    destruct (save_png lib image) as [e | png]; [discriminate|].
    destruct (b64encode lib png) as [e | b]; [discriminate|].
    inversion Hbody; subst; clear Hbody. simpl.
    repeat split. now exists b.
Qed.

(** X1.  The answers of [POST /api/generate], exhaustively and in both
    directions.  With no pipeline loaded the answer is 503; with one
    loaded and a blank prompt it is 400; with one loaded, a prompt that is
    not blank and a step of the generation raising [e] it is 500 with
    [str(e)] after ["Error generating image: "]; and when no step raises
    it is a response with [success = True], an image and no [error].
    Conversely an answer of each kind is given in its case only: a 500
    always comes from a step that raised, and a success excludes every
    failure.  The handler never builds a response with
    [success = False]. *)
Theorem generate_image_answers (request : ImageGenerationRequest) (w : world) :
  (pipe w = None ->
   fst (generate_image lib request w) =
     inl (mkHTTPException 503 (lit "Model not loaded. Please try again later."))) /\
  (forall p : pipeline,
     pipe w = Some p ->
     blank (prompt request) = true ->
     fst (generate_image lib request w) =
       inl (mkHTTPException 400 (lit "Prompt cannot be empty"))) /\
  (forall (p : pipeline) (e : exn),
     pipe w = Some p ->
     blank (prompt request) = false ->
     generation_failure lib p request w e ->
     fst (generate_image lib request w) =
       inl (mkHTTPException 500
              (lit "Error generating image: " ++ str_of_exn e))) /\
  (forall p : pipeline,
     pipe w = Some p ->
     blank (prompt request) = false ->
     (forall e, ~ generation_failure lib p request w e) ->
     exists resp,
       fst (generate_image lib request w) = inr resp /\
       success resp = true /\ error resp = None /\
       exists img, image_base64 resp = Some img) /\
  match fst (generate_image lib request w) with
  | inl h =>
      (pipe w = None /\
       h = mkHTTPException 503 (lit "Model not loaded. Please try again later.")) \/
      (pipe w <> None /\ blank (prompt request) = true /\
       h = mkHTTPException 400 (lit "Prompt cannot be empty")) \/
      (blank (prompt request) = false /\
       exists p e,
         pipe w = Some p /\
         generation_failure lib p request w e /\
         h = mkHTTPException 500
               (lit "Error generating image: " ++ str_of_exn e))
  | inr resp =>
      blank (prompt request) = false /\
      success resp = true /\ error resp = None /\
      (exists img, image_base64 resp = Some img) /\
      exists p, pipe w = Some p /\
                forall e, ~ generation_failure lib p request w e
  end.
Proof.
  assert (Hblank : forall b, blank (prompt request) = b ->
                             prompt_rejected request = b).
  { intros b Hb. destruct b; [now apply prompt_rejected_iff|].
    apply not_true_iff_false. rewrite prompt_rejected_iff.
    now apply not_true_iff_false. }
  split; [intros Hp; now rewrite (generate_image_unloaded request w Hp)|].
  split.
  { intros p Hp Hb.
    now rewrite (generate_image_blank request w Hp (Hblank _ Hb)). }
  split.
  { intros p e Hp Hb Hf.
    rewrite (generate_image_runs request w Hp (Hblank _ Hb)).
    destruct (generation_failure_raises Hf) as (w' & Hbody & _).
    now rewrite Hbody. }
  split.
  { intros p Hp Hb Hno.
    rewrite (generate_image_runs request w Hp (Hblank _ Hb)).
    destruct (generate_body_succeeds Hno) as (resp & w' & Hbody & H).
    rewrite Hbody. now exists resp. }
  pose proof (Hblank _ eq_refl) as Hr. clear Hblank.
  destruct (pipe w) as [p | ] eqn:Hp.
  - destruct (blank (prompt request)) eqn:Hb.
    + rewrite (generate_image_blank request w Hp Hr). simpl.
      right; left. repeat split. discriminate.
    + rewrite (generate_image_runs request w Hp Hr).
      destruct (generate_body lib p request w) as [[e | resp] w'] eqn:Hbody.
      * simpl. right; right. split; [reflexivity|].
        exists p, e. repeat split.
        exact (raises_generation_failure _ _ _ Hbody).
      * simpl.
        assert (Hno : forall e, ~ generation_failure lib p request w e).
        { intros e Hf.
          destruct (generation_failure_raises Hf) as (w'' & Hbody' & _).
          congruence. }
        destruct (generate_body_succeeds Hno) as (resp' & w'' & Hbody' & H).
        assert (resp' = resp) by congruence. subst resp'.
        destruct H as (H1 & H2 & H3).
        repeat split; try assumption.
        exists p. now split.
  - rewrite (generate_image_unloaded request w Hp). simpl.
    left. now split.
Qed.

(** A request that reaches the pipeline leaves the default generator
    where the call left it. *)
Lemma call_advances_default_generator (request : ImageGenerationRequest)
    (w : world) (p : pipeline) (g : option Generator) :
  pipe w = Some p ->
  prompt_rejected request = false ->
  seeded_generator lib request = inr g ->
  default_generator (snd (generate_image lib request w)) =
  snd (sample lib p (pipe_args request) g (default_generator w)).
Proof.
  intros Hp Hr Hg.
  rewrite (generate_image_runs request w Hp Hr), generate_body_unfold, Hg.
  simpl.
  destruct (fst (sample lib p (pipe_args request) g (default_generator w)))
    as [e | [ | image rest]]; try reflexivity.
  destruct (save_png lib image) as [e | png]; [reflexivity|].
  destruct (b64encode lib png) as [e | b]; reflexivity.
Qed.

(** X2.  The handler touches torch's default generator through the
    pipeline call only.  A request that reaches the call, with a seed or
    without one, leaves the default generator in the state in which the
    call returned it; a request stopped before the call (no pipeline
    loaded, a blank prompt, a seed that [manual_seed] refuses) leaves it as
    it was. *)
Theorem default_generator_use (request : ImageGenerationRequest) (w : world) :
  (forall (p : pipeline) (g : option Generator),
     pipe w = Some p ->
     prompt_rejected request = false ->
     seeded_generator lib request = inr g ->
     default_generator (snd (generate_image lib request w)) =
     snd (sample lib p (pipe_args request) g (default_generator w))) /\
  (pipe w = None \/ prompt_rejected request = true \/
   (exists e, seeded_generator lib request = inl e) ->
   default_generator (snd (generate_image lib request w)) =
   default_generator w).
Proof.
  split.
  - intros p g. apply call_advances_default_generator.
  - intros H.
    destruct (pipe w) as [p | ] eqn:Hp;
      [|now rewrite (generate_image_unloaded request w Hp)].
    destruct (prompt_rejected request) eqn:Hr;
      [now rewrite (generate_image_blank request w Hp Hr)|].
    destruct H as [H | [H | [e He]]]; try discriminate.
    rewrite (generate_image_runs request w Hp Hr), generate_body_unfold, He.
    reflexivity.
Qed.

(** X3.  In a successful response [timestamp] is the ISO format of the
    clock as read on entering the [try], before the generator is seeded,
    and [generation_time] is the time from that reading to the one taken
    after the base64 encoding; the clock is read exactly twice.  A request
    answered with an error reads it once when the generation failed and
    not at all when a guard rejected it. *)
Theorem response_times (request : ImageGenerationRequest) (w w' : world) :
  (forall resp,
     generate_image lib request w = (inr resp, w') ->
     timestamp resp = isoformat lib (clock w (ticks w)) /\
     generation_time resp =
       total_seconds lib (clock w (S (ticks w))) (clock w (ticks w)) /\
     ticks w' = S (S (ticks w))) /\
  (forall h,
     generate_image lib request w = (inl h, w') ->
     ticks w' = if (status_code h =? 500)%Z then S (ticks w) else ticks w).
Proof.
  destruct (pipe w) as [p | ] eqn:Hp.
  - destruct (prompt_rejected request) eqn:Hr.
    + rewrite (generate_image_blank request w Hp Hr).
      split; [discriminate|]. intros h H; inversion H; subst. reflexivity.
    + rewrite (generate_image_runs request w Hp Hr).
      body_cases p request w;
        (split; [intros resp H | intros h H]);
        inversion H; subst; simpl;
        rewrite ?after_call_calls; repeat split;
        try (destruct g; reflexivity).
  - rewrite (generate_image_unloaded request w Hp).
    split; [discriminate|]. intros h H; inversion H; subst. reflexivity.
Qed.

(** X4.  The image (or the error) a request gets depends on the world only
    through the loaded pipeline and torch's default generator: the clock,
    the file system and the requests served before do not reach it. *)
Theorem answer_ignores_clock_and_files (request : ImageGenerationRequest)
    (w1 w2 : world) :
  pipe w1 = pipe w2 ->
  default_generator w1 = default_generator w2 ->
  image_of (fst (generate_image lib request w1)) =
  image_of (fst (generate_image lib request w2)).
Proof.
  intros Hp Hg. now apply generate_image_answer_eq.
Qed.

(** X5.  The guard on the prompt is a test for a blank prompt: it rejects
    exactly the prompts made of whitespace only (the empty one among
    them), and its first disjunct [not request.prompt] adds nothing to
    [len(request.prompt.strip()) == 0]. *)
Theorem prompt_guard_is_blank_test (request : ImageGenerationRequest) :
  prompt_rejected request = blank (prompt request) /\
  prompt_rejected request = (len (strip (prompt request)) =? 0)%Z.
Proof.
  assert (H1 : prompt_rejected request = blank (prompt request)).
  { apply eq_true_iff_eq. apply prompt_rejected_iff. }
  split; [exact H1|].
  rewrite H1. apply eq_true_iff_eq.
  now rewrite len_zero_iff, strip_nil_iff.
Qed.

(** X6.  Every invocation of the pipeline is made on the loaded pipeline,
    with the prompt exactly as received (not stripped, and never blank),
    with the negative prompt as received when it is a non-empty string and
    the empty string otherwise, and with no generator when the request has
    no seed or else the generator that [manual_seed] made on [DEVICE] from
    the request's seed. *)
Theorem pipeline_receives_request (request : ImageGenerationRequest)
    (w : world) (c : PipeCall Module Components Generator) :
  In c (new_calls (generate_image lib request) w) ->
  pipe w = Some (call_pipe c) /\
  arg_prompt (call_args c) = prompt request /\
  blank (arg_prompt (call_args c)) = false /\
  (forall n : str,
     negative_prompt request = Some n ->
     arg_negative_prompt (call_args c) = n) /\
  (negative_prompt request = None ->
   arg_negative_prompt (call_args c) = lit "") /\
  (seed request = None -> call_generator c = None) /\
  (forall s : Z,
     seed request = Some s ->
     exists g, manual_seed lib (DEVICE lib) s = inr g /\
               call_generator c = Some g).
Proof.
  rewrite generate_image_calls.
  destruct (pipe w) as [p | ]; [|intros []].
  destruct (prompt_rejected request) eqn:Hr; [intros []|].
  destruct (seeded_generator lib request) as [e | g] eqn:Hg; [intros []|].
  intros [<- | []]. simpl.
  split; [reflexivity|]. split; [reflexivity|]. split.
  { apply not_true_iff_false. rewrite <- prompt_rejected_iff.
    now apply not_true_iff_false. }
  split.
  { intros n Hn. rewrite Hn. simpl. now destruct n. }
  split.
  { intros Hn. now rewrite Hn. }
  split.
  { intros Hs. unfold seeded_generator in Hg. rewrite Hs in Hg.
    now inversion Hg. }
  intros s Hs. rewrite (seeded_generator_some request Hs) in Hg.
  destruct (manual_seed lib (DEVICE lib) s) as [e | g0]; [discriminate|].
  inversion Hg; subst. now exists g0.
Qed.

(** ** Sequences of requests *)

Lemma serve_cons (rq : Request) (rest : list Request) (w : world) :
  serve lib (rq :: rest) w =
  (fst (handle lib rq w) :: fst (serve lib rest (snd (handle lib rq w))),
   snd (serve lib rest (snd (handle lib rq w)))).
Proof.
  simpl. destruct (handle lib rq w) as [a w']. simpl.
  now destruct (serve lib rest w') as [answers w''].
Qed.

Lemma handle_generate (request : ImageGenerationRequest) (w : world) :
  snd (handle lib (PostApiGenerate request) w) =
    snd (generate_image lib request w) /\
  fst (handle lib (PostApiGenerate request) w) =
    match fst (generate_image lib request w) with
    | inl h => inl h
    | inr resp => inr (ImageBody resp)
    end.
Proof.
  unfold handle, bind, ret.
  now destruct (generate_image lib request w) as [[h | resp] w'].
Qed.

Lemma handle_pipe (rq : Request) (w : world) :
  pipe (snd (handle lib rq w)) = pipe w.
Proof.
  destruct rq as [ | request | ]; try reflexivity.
  rewrite (proj1 (handle_generate request w)). apply generate_image_pipe.
Qed.

Lemma serve_pipe (rqs : list Request) (w : world) :
  pipe (snd (serve lib rqs w)) = pipe w.
Proof.
  revert w. induction rqs as [ | rq rest IH]; intros w; [reflexivity|].
  rewrite serve_cons. simpl. now rewrite IH, handle_pipe.
Qed.

(** With a pipeline loaded the only errors are 400 and 500. *)
Lemma generate_image_loaded_status (request : ImageGenerationRequest)
    (w : world) (p : pipeline) (h : HTTPException) :
  pipe w = Some p ->
  fst (generate_image lib request w) = inl h ->
  status_code h = 400%Z \/ status_code h = 500%Z.
Proof.
  intros Hp.
  destruct (prompt_rejected request) eqn:Hr.
  - rewrite (generate_image_blank request w Hp Hr). simpl.
    intros H; inversion H. now left.
  - rewrite (generate_image_runs request w Hp Hr).
    destruct (generate_body lib p request w) as [[e | resp] w']; simpl;
      intros H; inversion H. now right.
Qed.

Lemma serve_answers_loaded (rqs : list Request) (w : world) (p : pipeline) :
  pipe w = Some p -> Forall answer_when_loaded (fst (serve lib rqs w)).
Proof.
  revert w. induction rqs as [ | rq rest IH]; intros w Hp; [constructor|].
  rewrite serve_cons. simpl.
  constructor.
  - destruct rq as [ | request | ].
    + simpl. now rewrite Hp.
    + rewrite (proj2 (handle_generate request w)).
      destruct (fst (generate_image lib request w)) as [h | resp] eqn:Hg;
        simpl; [|exact I].
      destruct (generate_image_loaded_status request w Hp Hg) as [-> | ->];
        discriminate.
    + exact I.
  - apply IH. now rewrite handle_pipe.
Qed.

Lemma serve_length (rqs : list Request) (w : world) :
  List.length (fst (serve lib rqs w)) = List.length rqs.
Proof.
  revert w. induction rqs as [ | rq rest IH]; intros w; [reflexivity|].
  rewrite serve_cons. simpl. now rewrite IH.
Qed.

(** X7.  Once a pipeline is loaded it stays loaded: after any sequence of
    requests [pipe] is the same pipeline, there is one answer per request,
    no answer is a 503 and every health check reports
    [model_loaded = True]. *)
Theorem loaded_stays_loaded (rqs : list Request) (w : world) (p : pipeline) :
  pipe w = Some p ->
  pipe (snd (serve lib rqs w)) = Some p /\
  List.length (fst (serve lib rqs w)) = List.length rqs /\
  Forall answer_when_loaded (fst (serve lib rqs w)).
Proof.
  intros Hp. split; [now rewrite serve_pipe|].
  split; [apply serve_length | exact (serve_answers_loaded rqs w Hp)].
Qed.

(** X8.  While no pipeline is loaded the server is inert: any sequence
    of requests leaves the world exactly as it was (in particular the
    pipeline is never invoked and the clock never read), every generation
    request is answered 503 and every health check reports
    [model_loaded = False]. *)
Theorem unloaded_server_is_inert (rqs : list Request) (w : world) :
  pipe w = None ->
  snd (serve lib rqs w) = w /\
  Forall answer_when_unloaded (fst (serve lib rqs w)).
Proof.
  intros Hp.
  induction rqs as [ | rq rest [IHw IHa]]; [split; [reflexivity | constructor]|].
  rewrite serve_cons. simpl.
  assert (Hw : snd (handle lib rq w) = w).
  { destruct rq as [ | request | ]; try reflexivity.
    rewrite (proj1 (handle_generate request w)).
    now rewrite (generate_image_unloaded request w Hp). }
  rewrite Hw. split; [exact IHw|].
  constructor; [|exact IHa].
  destruct rq as [ | request | ].
  - simpl. now rewrite Hp.
  - rewrite (proj2 (handle_generate request w)).
    now rewrite (generate_image_unloaded request w Hp).
  - exact I.
Qed.

Lemma handle_trace (rq : Request) (w : world) :
  exists added,
    pipe_calls (snd (handle lib rq w)) = pipe_calls w ++ added /\
    (List.length added <= (if is_generate rq then 1 else 0))%nat /\
    Forall (fun c => pipe w = Some (call_pipe c)) added.
Proof.
  destruct rq as [ | request | ].
  - exists []. simpl. rewrite app_nil_r. repeat split; [lia | constructor].
  - exists (new_calls (generate_image lib request) w).
    rewrite (proj1 (handle_generate request w)), generate_image_trace.
    split; [reflexivity|].
    rewrite generate_image_calls.
    destruct (pipe w) as [p | ]; [|split; [simpl; lia | constructor]].
    destruct (prompt_rejected request); [split; [simpl; lia | constructor]|].
    destruct (seeded_generator lib request) as [e | g];
      [split; [simpl; lia | constructor]|].
    split; [simpl; lia|]. repeat constructor.
  - exists []. simpl. rewrite app_nil_r. repeat split; [lia | constructor].
Qed.

(** X9.  A sequence of requests only extends the trace of pipeline
    invocations, by at most one invocation per generation request (there
    is no retry, and the other two routes never invoke the pipeline), and
    every invocation is made on the pipeline that was loaded. *)
Theorem serve_pipeline_calls (rqs : list Request) (w : world) :
  exists added,
    pipe_calls (snd (serve lib rqs w)) = pipe_calls w ++ added /\
    (List.length added <= List.length (filter is_generate rqs))%nat /\
    Forall (fun c => pipe w = Some (call_pipe c)) added.
Proof.
  revert w. induction rqs as [ | rq rest IH]; intros w.
  - exists []. simpl. rewrite app_nil_r. repeat split; [lia | constructor].
  - rewrite serve_cons. simpl snd.
    destruct (handle_trace rq w) as (a1 & H1 & L1 & F1).
    destruct (IH (snd (handle lib rq w))) as (a2 & H2 & L2 & F2).
    exists (a1 ++ a2).
    split; [now rewrite H2, H1, app_assoc|].
    split.
    + rewrite length_app. simpl.
      destruct (is_generate rq); simpl; lia.
    + apply Forall_app. split; [exact F1|].
      rewrite handle_pipe in F2. exact F2.
Qed.


(** ** More about start-up *)

Lemma is_cuda_DEVICE : is_cuda (DEVICE lib) = cuda_is_available lib.
Proof. unfold DEVICE. now destruct (cuda_is_available lib). Qed.

(** Loading the base pipeline, call by call. *)
Lemma load_base_unfold (w : world) :
  load_base lib w =
  match from_pretrained lib MODEL_ID
          (if cuda_is_available lib then float16 else float32) with
  | inl e => (inl e, w)
  | inr p1 =>
      match to_device lib p1 (DEVICE lib) with
      | inl e => (inl e, w)
      | inr p2 =>
          if cuda_is_available lib then
            match enable_attention_slicing lib p2 with
            | inl e => (inl e, put_pipe (Some p2) w)
            | inr p3 =>
                match enable_xformers_memory_efficient_attention lib p3 with
                | inl _ => (inr p3, put_pipe (Some p3) w)
                | inr p4 => (inr p4, put_pipe (Some p4) w)
                end
            end
          else (inr p2, put_pipe (Some p2) w)
      end
  end.
Proof.
  unfold load_base, bind, lift, set_pipe, try_except, ret.
  rewrite is_cuda_DEVICE.
  destruct (from_pretrained lib MODEL_ID _) as [e | p1]; [reflexivity|].
  destruct (to_device lib p1 (DEVICE lib)) as [e | p2]; [reflexivity|].
  destruct (cuda_is_available lib); [|reflexivity].
  destruct (enable_attention_slicing lib p2) as [e | p3]; [reflexivity|].
  destruct (enable_xformers_memory_efficient_attention lib p3);
    reflexivity.
Qed.

(** X12.  [load_model] raises exactly when loading the base pipeline
    raises, and then with that very exception: nothing that goes wrong
    with the adapter can fail start-up. *)
Theorem load_model_raises_iff_base (w : world) (e : exn) :
  fst (load_model lib w) = inl e <-> fst (load_base lib w) = inl e.
Proof.
  rewrite load_model_unfold.
  destruct (load_base lib w) as [[e0 | p] w0]; simpl;
    [split; intros H; inversion H; reflexivity|].
  rewrite (proj1 (load_adapter_total p w0)).
  split; discriminate.
Qed.

(** X13.  On a machine without CUDA the model is loaded in [float32] and
    moved to ["cpu"], and none of the attention optimisations is applied:
    [pipe] is what [to(DEVICE)] returned, and stays so when there is no
    adapter file. *)
Theorem load_model_on_cpu (w : world) (p1 p2 : pipeline) :
  cuda_is_available lib = false ->
  from_pretrained lib MODEL_ID float32 = inr p1 ->
  to_device lib p1 cpu = inr p2 ->
  load_base lib w = (inr p2, put_pipe (Some p2) w) /\
  (path_exists lib (fs w) (LORA_ADAPTER_PATH lib) = false ->
   load_model lib w = (inr tt, put_pipe (Some p2) w)).
Proof.
  intros Hc H1 H2.
  assert (Hb : load_base lib w = (inr p2, put_pipe (Some p2) w)).
  { rewrite load_base_unfold. unfold DEVICE. rewrite Hc, H1, H2.
    reflexivity. }
  split; [exact Hb|].
  intros Hx. rewrite load_model_unfold, Hb, load_adapter_unfold.
  simpl. now rewrite Hx.
Qed.

(** X14.  On a machine with CUDA the model is loaded in [float16], moved
    to ["cuda"] and attention slicing is enabled; xformers is then tried,
    and when it raises the exception is dropped and [pipe] is the sliced
    pipeline. *)
Theorem load_model_on_cuda (w : world) (p1 p2 p3 : pipeline) :
  cuda_is_available lib = true ->
  from_pretrained lib MODEL_ID float16 = inr p1 ->
  to_device lib p1 cuda = inr p2 ->
  enable_attention_slicing lib p2 = inr p3 ->
  (forall p4,
     enable_xformers_memory_efficient_attention lib p3 = inr p4 ->
     load_base lib w = (inr p4, put_pipe (Some p4) w)) /\
  (forall e,
     enable_xformers_memory_efficient_attention lib p3 = inl e ->
     load_base lib w = (inr p3, put_pipe (Some p3) w)).
Proof.
  intros Hc H1 H2 H3.
  split; intros x Hx; rewrite load_base_unfold; unfold DEVICE;
    now rewrite Hc, H1, H2, H3, Hx.
Qed.

(** X15.  When fetching the model or moving it to the device raises,
    [load_model] raises the same exception and leaves the world, [pipe]
    included, untouched.  When attention slicing raises (on CUDA),
    [load_model] raises as well, but [pipe] has already been assigned: it
    names the pipeline without the optimisations. *)
Theorem load_model_failures (w : world) (e : exn) :
  (from_pretrained lib MODEL_ID
     (if cuda_is_available lib then float16 else float32) = inl e ->
   load_model lib w = (inl e, w)) /\
  (forall p1,
     from_pretrained lib MODEL_ID
       (if cuda_is_available lib then float16 else float32) = inr p1 ->
     to_device lib p1 (DEVICE lib) = inl e ->
     load_model lib w = (inl e, w)) /\
  (forall p1 p2,
     cuda_is_available lib = true ->
     from_pretrained lib MODEL_ID float16 = inr p1 ->
     to_device lib p1 cuda = inr p2 ->
     enable_attention_slicing lib p2 = inl e ->
     load_model lib w = (inl e, put_pipe (Some p2) w)).
Proof.
  split; [|split].
  - intros H. now rewrite load_model_unfold, load_base_unfold, H.
  - intros p1 H1 H2. now rewrite load_model_unfold, load_base_unfold, H1, H2.
  - intros p1 p2 Hc H1 H2 H3.
    rewrite load_model_unfold, load_base_unfold. unfold DEVICE.
    now rewrite Hc, H1, H2, H3.
Qed.

(** X16.  What a failure while applying the adapter leaves behind.  When
    reading the file or wrapping the UNet raises, [pipe] is the base
    pipeline.  When the state dict cannot be loaded, the UNet stays the
    LoRA-wrapped module that [get_peft_model] returned, without the
    adapter weights: the assignment to [pipe.unet] is not undone. *)
Theorem adapter_failure_states (w w0 : world) (p0 : pipeline) (e : exn) :
  load_base lib w = (inr p0, w0) ->
  path_exists lib (fs w) (LORA_ADAPTER_PATH lib) = true ->
  (load_file lib (fs w) (LORA_ADAPTER_PATH lib) = inl e ->
   load_model lib w = (inr tt, w0)) /\
  (forall sd,
     load_file lib (fs w) (LORA_ADAPTER_PATH lib) = inr sd ->
     get_peft_model lib (unet p0) lora_cfg = inl e ->
     load_model lib w = (inr tt, w0)) /\
  (forall sd m,
     load_file lib (fs w) (LORA_ADAPTER_PATH lib) = inr sd ->
     get_peft_model lib (unet p0) lora_cfg = inr m ->
     load_state_dict lib m sd false = inl e ->
     load_model lib w = (inr tt, put_pipe (Some (with_unet p0 m)) w0)).
Proof.
  intros Hb Hx.
  pose proof (load_base_ok w Hb) as Hw0.
  assert (Hfs : fs w0 = fs w) by (now subst w0).
  rewrite load_model_unfold, Hb, load_adapter_unfold, Hfs, Hx.
  split; [|split].
  - intros H. now rewrite H.
  - intros sd H1 H2. now rewrite H1, H2.
  - intros sd m H1 H2 H3. now rewrite H1, H2, H3.
Qed.

(** ** Configuration and validation *)

Lemma endswith_slash_app (x y : str) :
  y <> [] -> endswith_slash (x ++ y) = endswith_slash y.
Proof.
  intros Hy. unfold endswith_slash. rewrite rev_app_distr.
  destruct (rev y) as [ | c t] eqn:E; [|reflexivity].
  exfalso. apply Hy.
  apply (f_equal (@rev N)) in E. now rewrite rev_involutive in E.
Qed.

Lemma truthy_app (x y : str) : y <> [] -> truthy (x ++ y) = true.
Proof. intros Hy. destruct x; [destruct y; [now destruct Hy | reflexivity] | reflexivity]. Qed.

(** Joining a file name that does not start with a slash onto the
    [models] directory. *)
Lemma join_models_file (d f : str) :
  startswith_slash f = false ->
  path_join d [lit "models"; f] =
  path_join d [lit "models"] ++ slash :: f.
Proof.
  intros Hf. unfold path_join. simpl fold_left.
  unfold join2 at 1. rewrite Hf.
  assert (Hm : lit "models" <> []) by discriminate.
  assert (Hs : slash :: lit "models" <> []) by discriminate.
  unfold join2. simpl startswith_slash.
  destruct (negb (truthy d) || endswith_slash d).
  - now rewrite (truthy_app d Hm), (endswith_slash_app d Hm).
  - now rewrite (truthy_app d Hs), (endswith_slash_app d Hs).
Qed.

(** X19.  The adapter weights and the adapter configuration are looked
    for in one directory, [models] under the directory of the module, under
    the names [adapter_model.safetensors] and [adapter_config.json]; the
    two paths are never the same, and when the module's directory is the
    empty string both are relative to the working directory. *)
Theorem adapter_paths :
  LORA_ADAPTER_PATH lib =
    path_join (module_dirname lib) [lit "models"] ++
    lit "/adapter_model.safetensors" /\
  LORA_CONFIG_PATH lib =
    path_join (module_dirname lib) [lit "models"] ++
    lit "/adapter_config.json" /\
  LORA_ADAPTER_PATH lib <> LORA_CONFIG_PATH lib /\
  (module_dirname lib = [] ->
   LORA_ADAPTER_PATH lib = lit "models/adapter_model.safetensors").
Proof.
  assert (H1 : LORA_ADAPTER_PATH lib =
               path_join (module_dirname lib) [lit "models"] ++
               lit "/adapter_model.safetensors")
    by (apply join_models_file; reflexivity).
  assert (H2 : LORA_CONFIG_PATH lib =
               path_join (module_dirname lib) [lit "models"] ++
               lit "/adapter_config.json")
    by (apply join_models_file; reflexivity).
  split; [exact H1|]. split; [exact H2|]. split.
  - rewrite H1, H2. intros H. apply app_inv_head in H. discriminate H.
  - intros Hd. unfold LORA_ADAPTER_PATH. now rewrite Hd.
Qed.


(** [load_model] assigns [pipe] once the pipeline is on the device, and
    not before. *)
Lemma load_model_pipe (w : world) :
  match from_pretrained lib MODEL_ID
          (if cuda_is_available lib then float16 else float32) with
  | inl _ => pipe (snd (load_model lib w)) = pipe w
  | inr p1 =>
      match to_device lib p1 (DEVICE lib) with
      | inl _ => pipe (snd (load_model lib w)) = pipe w
      | inr _ => exists p, pipe (snd (load_model lib w)) = Some p
      end
  end.
Proof.
  rewrite load_model_unfold, load_base_unfold.
  destruct (from_pretrained lib MODEL_ID _) as [e | p1]; [reflexivity|].
  destruct (to_device lib p1 (DEVICE lib)) as [e | p2]; [reflexivity|].
  assert (Ha : forall q, exists p,
             pipe (snd (load_adapter lib q (put_pipe (Some q) w))) = Some p).
  { intros q.
    destruct (load_adapter_total q (put_pipe (Some q) w)) as (_ & H & _).
    destruct (pipe (snd (load_adapter lib q (put_pipe (Some q) w))))
      as [p | ]; [now exists p|].
    exfalso. now apply H. }
  destruct (cuda_is_available lib); [|apply Ha].
  destruct (enable_attention_slicing lib p2) as [e | p3]; [now exists p2|].
  destruct (enable_xformers_memory_efficient_attention lib p3); apply Ha.
Qed.

(** C4 (amended).  [GET /health] reports [model_loaded] as [pipe is not None];
    [POST /api/generate] answers 503 whenever [pipe] is [None]; none of
    the three request handlers changes [pipe]; and [load_model] alone
    assigns it, exactly when the pretrained pipeline has been fetched and
    moved to the device (also if it raises afterwards), so that a start-up
    that returns leaves a pipeline loaded.  It is not the only state a
    handler leaves behind: a request that reaches the pipeline leaves
    torch's default generator where the call left it. *)
Theorem pipe_assigned_by_load_model_only (request : ImageGenerationRequest)
    (w : world) :
  fst (health_check lib w) =
    inr {| health_status := lit "ok";
           health_device := device_str (DEVICE lib);
           model_loaded := match pipe w with Some _ => true | None => false end |} /\
  (pipe w = None ->
   fst (generate_image lib request w) =
     inl (mkHTTPException 503 (lit "Model not loaded. Please try again later."))) /\
  pipe (snd (health_check lib w)) = pipe w /\
  pipe (snd (generate_image lib request w)) = pipe w /\
  pipe (snd (get_models_info lib w)) = pipe w /\
  (forall e,
     from_pretrained lib MODEL_ID
       (if cuda_is_available lib then float16 else float32) = inl e ->
     pipe (snd (load_model lib w)) = pipe w) /\
  (forall p1 e,
     from_pretrained lib MODEL_ID
       (if cuda_is_available lib then float16 else float32) = inr p1 ->
     to_device lib p1 (DEVICE lib) = inl e ->
     pipe (snd (load_model lib w)) = pipe w) /\
  (forall p1 p2,
     from_pretrained lib MODEL_ID
       (if cuda_is_available lib then float16 else float32) = inr p1 ->
     to_device lib p1 (DEVICE lib) = inr p2 ->
     exists p, pipe (snd (load_model lib w)) = Some p) /\
  (fst (load_model lib w) = inr tt ->
   exists p, pipe (snd (load_model lib w)) = Some p) /\
  (forall (p : pipeline) (g : option Generator),
     pipe w = Some p ->
     prompt_rejected request = false ->
     seeded_generator lib request = inr g ->
     default_generator (snd (generate_image lib request w)) =
     snd (sample lib p (pipe_args request) g (default_generator w))).
Proof.
  split; [reflexivity|].
  split; [intros H; now rewrite (generate_image_unloaded request w H)|].
  split; [reflexivity|].
  split; [apply generate_image_pipe|].
  split; [reflexivity|].
  pose proof (load_model_pipe w) as H.
  split; [intros e He; now rewrite He in H|].
  split; [intros p1 e H1 H2; now rewrite H1, H2 in H|].
  split; [intros p1 p2 H1 H2; now rewrite H1, H2 in H|].
  split; [|intros p g; apply call_advances_default_generator].
  intros Hok.
  destruct (from_pretrained lib MODEL_ID _) as [e | p1] eqn:H1.
  - exfalso. revert Hok. rewrite load_model_unfold, load_base_unfold, H1.
    discriminate.
  - destruct (to_device lib p1 (DEVICE lib)) as [e | p2] eqn:H2; [|exact H].
    exfalso. revert Hok. rewrite load_model_unfold, load_base_unfold, H1, H2.
    discriminate.
Qed.

(** ** Start-up followed by requests *)

Lemma load_model_loads (w : world) :
  fst (load_model lib w) = inr tt -> pipe (snd (load_model lib w)) <> None.
Proof.
  rewrite load_model_unfold.
  destruct (load_base lib w) as [[e | p] w0] eqn:Hb; [discriminate|].
  intros _. apply load_adapter_total.
  rewrite (load_base_ok w Hb). discriminate.
Qed.

(** X21.  After a start-up that returned normally, whatever happened to
    the adapter, no request of any sequence is answered 503 and every
    health check reports the model as loaded. *)
Theorem serving_after_startup (rqs : list Request) (w : world) :
  fst (load_model lib w) = inr tt ->
  Forall answer_when_loaded (fst (serve lib rqs (snd (load_model lib w)))) /\
  pipe (snd (serve lib rqs (snd (load_model lib w)))) =
  pipe (snd (load_model lib w)).
Proof.
  intros H. pose proof (load_model_loads w H) as Hl.
  split; [|apply serve_pipe].
  destruct (pipe (snd (load_model lib w))) as [p | ] eqn:Hp;
    [|now destruct Hl].
  exact (serve_answers_loaded rqs _ Hp).
Qed.

(** X22.  Requests without a seed share torch's default generator: the
    second of two such requests gets the image it would get on the first
    world with the default generator replaced by the state in which the
    sampler left it for the first. *)
Theorem unseeded_requests_chain (r1 r2 : ImageGenerationRequest) (w : world)
    (p : pipeline) :
  pipe w = Some p ->
  prompt_rejected r1 = false ->
  seed r1 = None ->
  image_of (fst (generate_image lib r2 (snd (generate_image lib r1 w)))) =
  image_of (fst (generate_image lib r2
                   (put_default_generator
                      (snd (sample lib p (pipe_args r1) None
                              (default_generator w)))
                      w))).
Proof.
  intros Hp Hr Hs. apply generate_image_answer_eq.
  - now rewrite generate_image_pipe.
  - simpl. apply (call_advances_default_generator r1 w Hp Hr).
    unfold seeded_generator. now rewrite Hs.
Qed.

End Facts.

(** ** The handlers on concrete requests *)

Import Demo.

Local Open Scope Z_scope.

(** Without a seed the image depends on torch's default generator. *)
Example unseeded_generation_may_differ :
  image_of (fst (generate_image lib cat_unseeded (serving good_files 5))) =
    inr (true, Some [55%N], None) /\
  image_of (fst (generate_image lib cat_unseeded (serving good_files 99))) =
    inr (true, Some [149%N], None).
Proof. split; reflexivity. Qed.

(** C1, as stated, fails: the prompt is not blank and the pipeline is
    loaded, yet the sampler raises on the height and the answer is
    HTTP 500. *)
Lemma nonblank_prompt_may_fail :
  pipe (serving good_files 5) = Some base /\
  blank (prompt cat_7) = false /\
  fst (generate_image lib cat_7 (serving good_files 5)) =
    inl (mkHTTPException 500
           (lit "Error generating image: height must be divisible by 8")).
Proof. repeat split. Qed.

(** The seeded request on the loaded pipeline succeeds with one call. *)
Lemma generate_image_success_witness :
  exists resp w',
    generate_image lib cat (serving good_files 5) = (inr resp, w') /\
    success resp = true /\
    image_base64 resp = Some [92%N] /\
    error resp = None /\
    new_calls (generate_image lib cat) (serving good_files 5) =
    [mkPipeCall base
       {| arg_prompt := lit "a cat"; arg_negative_prompt := lit "";
          arg_num_inference_steps := 50; arg_guidance_scale := 7.5;
          arg_height := 512; arg_width := 512 |}
       (Some 42%Z)].
Proof.
  apply (generate_image_success lib cat (serving good_files 5)
           (p := base) (g := Some 42%Z) (image := 92%Z) (rest := [])
           (png := png_of 92) (img_base64 := [92%N]));
    try reflexivity.
  vm_compute. discriminate.
Defined.

(** C3, as stated, fails: the adapter file exists, but it cannot be read;
    start-up goes on and [pipe] is the pretrained pipeline, its UNet
    neither wrapped nor loaded with adapter weights. *)
Lemma adapter_present_but_not_applied :
  path_exists lib (fs (fresh bad_files 0)) (LORA_ADAPTER_PATH lib) = true /\
  from_pretrained lib MODEL_ID float32 = inr base /\
  load_model lib (fresh bad_files 0) = (inr tt, serving bad_files 0).
Proof. repeat split. Qed.

(** With a readable adapter file the UNet is wrapped and loaded. *)
Lemma load_model_adapter_witness :
  load_base lib (fresh good_files 0) = (inr base, serving good_files 0) /\
  load_model lib (fresh good_files 0) =
    (inr tt, put_pipe (Some (with_unet base 1608%Z)) (serving good_files 0)).
Proof.
  split; [reflexivity|].
  destruct (load_model_adapter lib (fresh good_files 0)
              (w0 := serving good_files 0) (p0 := base) eq_refl)
    as (_ & H & _).
  apply (H 7%Z 1601%Z 1608%Z); reflexivity.
Defined.



(** C7, as stated, fails: before the pipeline is loaded a blank prompt is
    answered 503, not 400. *)
Lemma blank_prompt_before_load :
  blank (prompt spaces) = true /\
  generate_image lib spaces (fresh good_files 0) =
    (inl (mkHTTPException 503 (lit "Model not loaded. Please try again later.")),
     fresh good_files 0).
Proof. split; reflexivity. Qed.

(** On the loaded pipeline the blank prompt is answered 400, without a
    call. *)
Lemma blank_prompt_rejected_witness :
  blank (prompt spaces) = true /\
  new_calls (generate_image lib spaces) (serving good_files 0) = [] /\
  generate_image lib spaces (serving good_files 0) =
    (inl (mkHTTPException 400 (lit "Prompt cannot be empty")),
     serving good_files 0).
Proof.
  destruct (blank_prompt_rejected lib spaces (serving good_files 0) eq_refl)
    as (H1 & H2 & _).
  split; [reflexivity|]. split; [exact H1 | exact (H2 base eq_refl)].
Defined.

(** An unreadable adapter file: start-up continues on the base pipeline
    and the adapter is reported as loaded. *)
Lemma models_info_reports_file_existence_witness :
  load_base lib (fresh bad_files 0) = (inr base, serving bad_files 0) /\
  path_exists lib (fs (fresh bad_files 0)) (LORA_ADAPTER_PATH lib) = true /\
  apply_lora lib base (serving bad_files 0) =
    (inl (Exception (lit "invalid header")), serving bad_files 0) /\
  load_model lib (fresh bad_files 0) = (inr tt, serving bad_files 0) /\
  exists info,
    fst (get_models_info lib (serving bad_files 0)) = inr info /\
    lora_adapter info = lit "loaded".
Proof.
  split; [reflexivity|]. split; [reflexivity|]. split; [reflexivity|].
  destruct (models_info_reports_file_existence lib (fresh bad_files 0))
    as (_ & H).
  exact (H base (serving bad_files 0) (serving bad_files 0)
           (Exception (lit "invalid header")) eq_refl eq_refl eq_refl).
Defined.


(** ** Further runs *)

(** Two worlds with the same pipeline and default generator, at different
    times and with different files, give the unseeded request one image. *)
Lemma answer_ignores_clock_and_files_witness :
  pipe (serving good_files 5) = pipe (tick (serving bad_files 5)) /\
  default_generator (serving good_files 5) =
    default_generator (tick (serving bad_files 5)) /\
  image_of (fst (generate_image lib cat_unseeded (serving good_files 5))) =
  image_of (fst (generate_image lib cat_unseeded (tick (serving bad_files 5)))).
Proof.
  split; [reflexivity|]. split; [reflexivity|].
  apply (answer_ignores_clock_and_files lib cat_unseeded
           (serving good_files 5) (tick (serving bad_files 5)));
    reflexivity.
Defined.

(** The call of the seeded request: the prompt as given, the empty
    negative prompt and the generator seeded with 42. *)
Lemma pipeline_receives_request_witness :
  In (mkPipeCall base (pipe_args cat) (Some 42))
     (new_calls (generate_image lib cat) (serving good_files 5)) /\
  arg_prompt (pipe_args cat) = lit "a cat" /\
  arg_negative_prompt (pipe_args cat) = lit "" /\
  exists g, manual_seed lib (DEVICE lib) 42 = inr g /\ Some 42 = Some g.
Proof.
  assert (I : In (mkPipeCall base (pipe_args cat) (Some 42))
                 (new_calls (generate_image lib cat) (serving good_files 5)))
    by (left; reflexivity).
  destruct (pipeline_receives_request lib cat (serving good_files 5) _ I)
    as (_ & H1 & _ & _ & H2 & _ & H3).
  split; [exact I|]. split; [exact H1|]. split; [exact (H2 eq_refl)|].
  exact (H3 42 eq_refl).
Defined.

(** The session on a loaded server. *)
Lemma loaded_stays_loaded_witness :
  pipe (serving good_files 5) = Some base /\
  pipe (snd (serve lib session (serving good_files 5))) = Some base /\
  List.length (fst (serve lib session (serving good_files 5))) = 5%nat /\
  Forall answer_when_loaded (fst (serve lib session (serving good_files 5))).
Proof.
  split; [reflexivity|].
  exact (loaded_stays_loaded lib session (serving good_files 5) eq_refl).
Defined.

(** The session before start-up. *)
Lemma unloaded_server_is_inert_witness :
  pipe (fresh good_files 5) = None /\
  snd (serve lib session (fresh good_files 5)) = fresh good_files 5 /\
  Forall answer_when_unloaded (fst (serve lib session (fresh good_files 5))).
Proof.
  split; [reflexivity|].
  exact (unloaded_server_is_inert lib session (fresh good_files 5) eq_refl).
Defined.

(** Start-up without CUDA and without an adapter file. *)
Lemma load_model_on_cpu_witness :
  cuda_is_available lib = false /\
  load_base lib (fresh no_files 0) = (inr base, serving no_files 0) /\
  load_model lib (fresh no_files 0) = (inr tt, serving no_files 0).
Proof.
  destruct (load_model_on_cpu lib (fresh no_files 0) (p1 := base) (p2 := base)
              eq_refl eq_refl eq_refl) as [H1 H2].
  split; [reflexivity|]. split; [exact H1 | exact (H2 eq_refl)].
Defined.

(** Start-up with CUDA and without xformers. *)
Lemma load_model_on_cuda_witness :
  cuda_is_available gpu_lib = true /\
  enable_xformers_memory_efficient_attention gpu_lib sliced =
    inl (Exception (lit "xformers is not installed")) /\
  load_base gpu_lib (fresh no_files 0) =
    (inr sliced, put_pipe (Some sliced) (fresh no_files 0)).
Proof.
  destruct (load_model_on_cuda gpu_lib (fresh no_files 0)
              (p1 := base) (p2 := base) (p3 := sliced)
              eq_refl eq_refl eq_refl eq_refl) as [_ H].
  split; [reflexivity|]. split; [reflexivity|].
  exact (H _ eq_refl).
Defined.

(** Start-up when the model cannot be fetched, and when attention
    slicing fails. *)
Lemma load_model_failures_witness :
  load_model offline_lib (fresh good_files 0) =
    (inl (Exception (lit "connection error")), fresh good_files 0) /\
  load_model broken_gpu_lib (fresh good_files 0) =
    (inl (Exception (lit "CUDA out of memory")), serving good_files 0).
Proof.
  destruct (load_model_failures offline_lib (fresh good_files 0)
              (Exception (lit "connection error"))) as (H1 & _).
  destruct (load_model_failures broken_gpu_lib (fresh good_files 0)
              (Exception (lit "CUDA out of memory"))) as (_ & _ & H2).
  split; [exact (H1 eq_refl)|].
  exact (H2 base base eq_refl eq_refl eq_refl eq_refl).
Defined.

(** A state dict that does not fit: the UNet stays wrapped. *)
Lemma adapter_failure_states_witness :
  load_base gpu_lib (fresh good_files 0) =
    (inr sliced, put_pipe (Some sliced) (fresh good_files 0)) /\
  path_exists gpu_lib (fs (fresh good_files 0)) (LORA_ADAPTER_PATH gpu_lib) = true /\
  load_model gpu_lib (fresh good_files 0) =
    (inr tt,
     put_pipe (Some (with_unet sliced 2601))
       (put_pipe (Some sliced) (fresh good_files 0))).
Proof.
  destruct (adapter_failure_states gpu_lib (fresh good_files 0)
              (w0 := put_pipe (Some sliced) (fresh good_files 0))
              (p0 := sliced) (Exception (lit "size mismatch"))
              eq_refl eq_refl) as (_ & _ & H).
  split; [reflexivity|]. split; [reflexivity|].
  exact (H 7 2601 eq_refl eq_refl eq_refl).
Defined.


(** Start-up with an unreadable adapter file, then the session. *)
Lemma serving_after_startup_witness :
  fst (load_model lib (fresh bad_files 0)) = inr tt /\
  Forall answer_when_loaded
    (fst (serve lib session (snd (load_model lib (fresh bad_files 0))))) /\
  pipe (snd (serve lib session (snd (load_model lib (fresh bad_files 0))))) =
  pipe (snd (load_model lib (fresh bad_files 0))).
Proof.
  split; [reflexivity|].
  exact (serving_after_startup lib session (fresh bad_files 0) eq_refl).
Defined.

(** Two unseeded requests in a row: the second draws from generator 6. *)
Lemma unseeded_requests_chain_witness :
  pipe (serving good_files 5) = Some base /\
  prompt_rejected cat_unseeded = false /\
  seed cat_unseeded = None /\
  image_of (fst (generate_image lib cat_unseeded
                   (snd (generate_image lib cat_unseeded (serving good_files 5))))) =
  image_of (fst (generate_image lib cat_unseeded
                   (put_default_generator 6 (serving good_files 5)))).
Proof.
  split; [reflexivity|]. split; [reflexivity|]. split; [reflexivity|].
  exact (unseeded_requests_chain lib cat_unseeded cat_unseeded
           (serving good_files 5) (p := base) eq_refl eq_refl eq_refl).
Defined.

(** The successful request reads the clock at ticks 0 and 1. *)
Lemma response_times_witness :
  exists resp,
    generate_image lib cat (serving good_files 5) =
      (inr resp, snd (generate_image lib cat (serving good_files 5))) /\
    timestamp resp = isoformat lib 0 /\
    generation_time resp = total_seconds lib 1 0 /\
    ticks (snd (generate_image lib cat (serving good_files 5))) = 2%nat.
Proof.
  destruct (response_times lib cat (serving good_files 5)
              (snd (generate_image lib cat (serving good_files 5))))
    as [H _].
  eexists. split; [reflexivity|].
  exact (H _ eq_refl).
Defined.

(** C2 (a defect of the code).  The comment at line 188 says the seed is
    set for reproducibility, but nothing puts the LoRA-wrapped UNet in
    evaluation mode, so its dropout layers go on drawing from torch's
    default generator, which the seed does not reach.  Under
    [dropout_lib], after a start-up that applied the adapter, the same
    seeded request served twice gets two different images, and has moved
    the default generator in between. *)
Lemma seeded_requests_differ_under_dropout :
  fst (load_model dropout_lib (fresh good_files 5)) = inr tt /\
  pipe adapted = Some (with_unet base 1608) /\
  seed cat = Some 42 /\
  image_of (fst (generate_image dropout_lib cat adapted)) =
    inr (true, Some [97%N], None) /\
  image_of (fst (generate_image dropout_lib cat
                   (snd (generate_image dropout_lib cat adapted)))) =
    inr (true, Some [98%N], None) /\
  default_generator adapted = 5 /\
  default_generator (snd (generate_image dropout_lib cat adapted)) = 6.
Proof. repeat split. Qed.

(** Without the adapter the sampler of [dropout_lib] is that of [lib],
    and the same two requests get one image. *)
Example seeded_requests_agree_without_adapter :
  image_of (fst (generate_image dropout_lib cat (serving no_files 5))) =
    inr (true, Some [92%N], None) /\
  image_of (fst (generate_image dropout_lib cat
                   (snd (generate_image dropout_lib cat (serving no_files 5))))) =
    inr (true, Some [92%N], None).
Proof. split; reflexivity. Qed.

(** C4, as stated, fails: [pipe] is not the only state a handler leaves
    behind.  A request without a seed leaves [pipe] as it was and torch's
    default generator advanced, and the same request served again gets
    another image. *)
Lemma handler_advances_default_generator :
  pipe (snd (generate_image lib cat_unseeded (serving good_files 5))) =
    pipe (serving good_files 5) /\
  default_generator (serving good_files 5) = 5 /\
  default_generator (snd (generate_image lib cat_unseeded (serving good_files 5))) = 6 /\
  image_of (fst (generate_image lib cat_unseeded (serving good_files 5))) =
    inr (true, Some [55%N], None) /\
  image_of (fst (generate_image lib cat_unseeded
                   (snd (generate_image lib cat_unseeded (serving good_files 5))))) =
    inr (true, Some [56%N], None).
Proof. repeat split. Qed.

(** Before start-up a request is answered 503; a request leaves [pipe] in
    place; start-up assigns [pipe], also when it raises after the
    pipeline is on the device, and not when the model cannot be fetched. *)
Lemma pipe_assigned_by_load_model_only_witness :
  fst (generate_image lib cat (fresh good_files 0)) =
    inl (mkHTTPException 503 (lit "Model not loaded. Please try again later.")) /\
  pipe (snd (generate_image lib cat (serving good_files 0))) = Some base /\
  (exists p, pipe (snd (load_model lib (fresh good_files 0))) = Some p) /\
  fst (load_model broken_gpu_lib (fresh good_files 0)) =
    inl (Exception (lit "CUDA out of memory")) /\
  (exists p, pipe (snd (load_model broken_gpu_lib (fresh good_files 0))) = Some p) /\
  pipe (snd (load_model offline_lib (fresh good_files 0))) = None /\
  default_generator (snd (generate_image lib cat_unseeded (serving good_files 5))) = 6.
Proof.
  destruct (pipe_assigned_by_load_model_only lib cat_unseeded (serving good_files 5))
    as (_ & _ & _ & _ & _ & _ & _ & _ & _ & H10).
  destruct (pipe_assigned_by_load_model_only lib cat (fresh good_files 0))
    as (_ & H2 & _ & _ & _ & _ & _ & _ & H9 & _).
  destruct (pipe_assigned_by_load_model_only lib cat (serving good_files 0))
    as (_ & _ & _ & H4 & _).
  destruct (pipe_assigned_by_load_model_only broken_gpu_lib cat (fresh good_files 0))
    as (_ & _ & _ & _ & _ & _ & _ & H8 & _).
  destruct (pipe_assigned_by_load_model_only offline_lib cat (fresh good_files 0))
    as (_ & _ & _ & _ & _ & H6 & _).
  split; [exact (H2 eq_refl)|].
  split; [exact H4|].
  split; [exact (H9 eq_refl)|].
  split; [reflexivity|].
  split; [exact (H8 base base eq_refl eq_refl)|].
  split; [exact (H6 (Exception (lit "connection error")) eq_refl)|].
  exact (H10 base None eq_refl eq_refl eq_refl).
Defined.

(** The request the sampler refuses is answered 500; the request it
    accepts succeeds. *)
Lemma generate_image_answers_witness :
  fst (generate_image lib cat_7 (serving good_files 5)) =
    inl (mkHTTPException 500
           (lit "Error generating image: " ++
            lit "height must be divisible by 8")) /\
  exists resp,
    fst (generate_image lib cat (serving good_files 5)) = inr resp /\
    success resp = true /\ error resp = None /\
    exists img, image_base64 resp = Some img.
Proof.
  destruct (generate_image_answers lib cat_7 (serving good_files 5))
    as (_ & _ & H3 & _).
  destruct (generate_image_answers lib cat (serving good_files 5))
    as (_ & _ & _ & H4 & _).
  split.
  - apply (H3 base (Exception (lit "height must be divisible by 8")));
      try reflexivity.
    apply (pipeline_fails lib base cat_7 (serving good_files 5)
             (g := Some 42)); reflexivity.
  - apply (H4 base); try reflexivity.
    intros e Hf.
    destruct (generation_failure_raises Hf) as (w' & Hbody & _).
    discriminate Hbody.
Defined.

(** The default generator after a seeded and after an unseeded request
    under [lib], after a seeded one under [dropout_lib] with the adapter
    applied, and after a rejected one. *)
Lemma default_generator_use_witness :
  default_generator (snd (generate_image lib cat (serving good_files 5))) = 5 /\
  default_generator (snd (generate_image lib cat_unseeded (serving good_files 5))) = 6 /\
  default_generator (snd (generate_image dropout_lib cat adapted)) = 6 /\
  default_generator (snd (generate_image lib spaces (serving good_files 5))) = 5.
Proof.
  destruct (default_generator_use lib cat (serving good_files 5)) as [H1 _].
  destruct (default_generator_use lib cat_unseeded (serving good_files 5))
    as [H2 _].
  destruct (default_generator_use dropout_lib cat adapted) as [H3 _].
  destruct (default_generator_use lib spaces (serving good_files 5))
    as [_ H4].
  split; [exact (H1 base (Some 42) eq_refl eq_refl eq_refl)|].
  split; [exact (H2 base None eq_refl eq_refl eq_refl)|].
  split; [exact (H3 (with_unet base 1608) (Some 42) eq_refl eq_refl eq_refl)|].
  apply H4. right; left; reflexivity.
Defined.

